(** * bingnews-cli: the response formatter and the query dispatch

    A shallow embedding of [bingnews.py].  Python values are modelled as
    the JSON-shaped values the script handles, dictionaries live in a
    store and are addressed by reference (the script writes to the article
    dictionaries it is given), printing and the calls to the outside world
    (the search API, the link shortener) are recorded in a trace, and
    exceptions are results of the computation.

    What the script takes from libraries is modelled as follows.
    - [textwrap.wrap] is embedded in full, after [Lib/textwrap.py] of
      CPython 3.11, on strings of code points below 256.
    - [requests.get], [response.json] and the link shortener are oracles
      (section variables): each may answer or raise, and its answer may
      depend on everything that happened before.
    - [response.raise_for_status] raises [HTTPError] for a status from
      400 to 599, as in [requests].
    - [tabulate] followed by [click.secho] is one event that carries the
      rows; the drawing of the grid is not modelled.
    - [assert] statements are executed (the interpreter runs without
      [-O]).
    - The start-up of the module ([load_dotenv], the installation of the
      response cache) is part of the environment: its results are the
      variables [environ] and [requests_get]. *)

From Stdlib Require Import ZArith String Ascii List Bool Lia DecimalString.
From stdpp Require Import gmap strings list fin_maps.

Set Warnings "-register-all".

Local Open Scope Z_scope.

(** ** Values *)

(** Object identity of a dictionary. *)
Definition loc := nat.

(** The values [response.json()] produces.  Strings are sequences of
    code points below 256, one per [ascii].  A float is carried as its
    binary64 bit pattern; nothing in the script computes with it.  Lists
    are never written to by the script and are kept by value. *)
Inductive val : Type :=
| VNone
| VBool (b : bool)
| VInt (z : Z)
| VFloat (bits : Z)
| VStr (s : string)
| VList (items : list val)
| VDict (l : loc).
Arguments VDict l%_nat_scope.

(** The dictionaries of the program.  A location outside the domain of
    the store denotes a dictionary without keys. *)
Abbreviation heap := (gmap loc (gmap string val)).

Definition deref (h : heap) (l : loc) : gmap string val := default ∅ (h !! l).
Arguments deref h l%_nat_scope.

(** ** Exceptions and results *)

Inductive exn : Type :=
| AssertionError
| KeyError (key : val)
| IndexError
| TypeError
| AttributeError
| ValueError
| HTTPError (msg : string)
| ExternalError (name : string).

Inductive res (A : Type) : Type :=
| Ok (a : A)
| Raise (e : exn).
Arguments Ok {A} a.
Arguments Raise {A} e.

(** ** Output rows and the trace of effects *)

(** [new_dictionary] of [clean_bing_article_list]. *)
Record row : Type := Row { Title : string; Description : string; URL : string }.

Inductive event : Type :=
| EvSecho (message : string) (fg : option string)
| EvTable (rows : list row)
| EvGet (url : string) (headers : list (string * string)) (params : list (string * val))
| EvShort (url : val).

(** The status line, the final URL and the decoded body of an HTTP
    response; decoding the body allocates its dictionaries. *)
Record response : Type := Response {
  status_code : Z;
  reason : string;
  response_url : string;
  response_json : res (val * gmap loc (gmap string val))
}.

(** ** The state of a run and its monad *)

Record state : Type := State { store : gmap loc (gmap string val); trace : list event }.

Definition M (A : Type) : Type := state -> res A * state.

Definition ret {A} (a : A) : M A := fun s => (Ok a, s).

Definition raise {A} (e : exn) : M A := fun s => (Raise e, s).

Definition bind {A B} (m : M A) (k : A -> M B) : M B :=
  fun s => match m s with
           | (Ok a, s') => k a s'
           | (Raise e, s') => (Raise e, s')
           end.

Notation "'let*' x := m 'in' k" := (bind m (fun x => k))
  (at level 10, x name, m at level 200, k at level 200,
   format "'[v' 'let*'  x  :=  m  'in' '/' k ']'").

Definition lift {A} (r : res A) : M A := fun s => (r, s).

Definition emit (e : event) : M unit :=
  fun s => (Ok tt, State (store s) (trace s ++ [e])).

(** [try: m except HTTPError as error: handler(str(error))]. *)
Definition try_except_HTTPError {A} (m : M A) (handler : string -> M A) : M A :=
  fun s => match m s with
           | (Raise (HTTPError msg), s') => handler msg s'
           | r => r
           end.

(** ** Python's operators on these values *)

(** [sub in s] on strings. *)
Fixpoint is_substring (sub s : string) : bool :=
  String.prefix sub s ||
  match s with
  | EmptyString => false
  | String _ s' => is_substring sub s'
  end.

Definition is_str (k : string) (v : val) : bool :=
  match v with
  | VStr s => String.eqb s k
  | _ => false
  end.

(** [k in v] for a string constant [k]: key test on a dictionary,
    membership on a list, substring test on a string; the other values
    are not iterable. *)
Definition contains (k : string) (v : val) : M bool :=
  fun s => match v with
           | VDict l => (Ok (bool_decide (is_Some (deref (store s) l !! k))), s)
           | VList items => (Ok (existsb (is_str k) items), s)
           | VStr t => (Ok (is_substring k t), s)
           | _ => (Raise TypeError, s)
           end.

(** [v[k]] for a string constant [k]. *)
Definition getitem (v : val) (k : string) : M val :=
  fun s => match v with
           | VDict l => match deref (store s) l !! k with
                        | Some x => (Ok x, s)
                        | None => (Raise (KeyError (VStr k)), s)
                        end
           | _ => (Raise TypeError, s)
           end.

(** [v[0]]. *)
Definition getitem_0 (v : val) : M val :=
  fun s => match v with
           | VList (x :: _) => (Ok x, s)
           | VList [] => (Raise IndexError, s)
           | VStr (String c _) => (Ok (VStr (String c EmptyString)), s)
           | VStr EmptyString => (Raise IndexError, s)
           | VDict _ => (Raise (KeyError (VInt 0)), s)
           | _ => (Raise TypeError, s)
           end.

(** [v[k] = x] for a string constant [k]: writes to the dictionary
    object itself. *)
Definition setitem (v : val) (k : string) (x : val) : M unit :=
  fun s => match v with
           | VDict l => (Ok tt, State (<[l := <[k := x]> (deref (store s) l)]> (store s)) (trace s))
           | _ => (Raise TypeError, s)
           end.

Definition string_of_Z (z : Z) : string := NilZero.string_of_int (Z.to_int z).

Fixpoint chars (s : string) : list val :=
  match s with
  | EmptyString => []
  | String c s' => VStr (String c EmptyString) :: chars s'
  end.

(** The items a [for] loop over [v] visits: the elements of a list, the
    characters of a string, the keys of a dictionary (in the order of
    the map; the loop of the script fails on the first key whichever it
    is). *)
Definition iterate (v : val) : M (list val) :=
  fun s => match v with
           | VList items => (Ok items, s)
           | VStr t => (Ok (chars t), s)
           | VDict l => (Ok (VStr <$> (map_to_list (deref (store s) l)).*1), s)
           | _ => (Raise TypeError, s)
           end.

Fixpoint join (sep : string) (lines : list string) : string :=
  match lines with
  | [] => ""%string
  | [x] => x
  | x :: rest => x +:+ sep +:+ join sep rest
  end.


(** ** [textwrap.wrap]

    The standard library's [TextWrapper] with its default options
    (tabs expanded to columns of 8, whitespace replaced by spaces, long
    words broken, breaks allowed after hyphens, whitespace dropped at
    line ends), on strings of code points below 256. *)

Module Textwrap.
Local Open Scope nat_scope.

Definition code (c : ascii) : nat := nat_of_ascii c.

Definition in_range (lo hi : nat) (c : ascii) : bool :=
  (lo <=? code c) && (code c <=? hi).

(** [textwrap._whitespace]. *)
Definition is_whitespace (c : ascii) : bool :=
  in_range 9 13 c || in_range 32 32 c.

(** [str.isspace], which decides what [str.strip] removes. *)
Definition isspace (c : ascii) : bool :=
  in_range 9 13 c || in_range 28 32 c || in_range 133 133 c || in_range 160 160 c.

(** [\d]. *)
Definition is_digit (c : ascii) : bool := in_range 48 57 c.

(** [\w]. *)
Definition is_word_char (c : ascii) : bool :=
  in_range 48 57 c || in_range 65 90 c || in_range 95 95 c || in_range 97 122 c
  || in_range 170 170 c || in_range 178 179 c || in_range 181 181 c
  || in_range 185 186 c || in_range 188 190 c || in_range 192 214 c
  || in_range 216 246 c || in_range 248 255 c.

(** [letter = [^\d\W]]. *)
Definition is_letter (c : ascii) : bool := is_word_char c && negb (is_digit c).

(** [word_punct]: a [\w] character or one of the seven marks
    exclamation, double quote, ampersand, apostrophe, comma, full stop,
    question mark. *)
Definition is_word_punct (c : ascii) : bool :=
  is_word_char c || in_range 33 34 c || in_range 38 39 c || in_range 44 44 c
  || in_range 46 46 c || in_range 63 63 c.

Definition is_hyphen (c : ascii) : bool := in_range 45 45 c.

Definition space : ascii := ascii_of_nat 32.

(** [str.expandtabs]. *)
Fixpoint expandtabs (tabsize line_pos : nat) (text : list ascii) : list ascii :=
  match text with
  | [] => []
  | ch :: rest =>
      if in_range 9 9 ch then
        if 0 <? tabsize then
          let incr := tabsize - line_pos mod tabsize in
          repeat space incr ++ expandtabs tabsize (line_pos + incr) rest
        else expandtabs tabsize line_pos rest
      else
        ch :: expandtabs tabsize
                (if in_range 10 10 ch || in_range 13 13 ch then 0 else S line_pos) rest
  end.

Definition munge_whitespace (text : list ascii) : list ascii :=
  (fun c => if is_whitespace c then space else c) <$> expandtabs 8 0 text.

(** *** [wordsep_re] *)

(** Length of the longest prefix whose characters satisfy [p]. *)
Fixpoint run_length (p : ascii -> bool) (text : list ascii) : nat :=
  match text with
  | c :: rest => if p c then S (run_length p rest) else 0
  | [] => 0
  end.

Definition heads (p : ascii -> bool) (text : list ascii) : bool :=
  match text with c :: _ => p c | [] => false end.

(** [-{2,} (?=\w)] matches at the start of [text]: the number of hyphens. *)
Definition em_dash (text : list ascii) : option nat :=
  let k := run_length is_hyphen text in
  if (2 <=? k) && heads is_word_char (drop k text) then Some k else None.

(** [-(?: (?<=lt{2}-) | (?<=lt-lt-)) (?= lt -? lt)] at the start of [text],
    with [before] the text to the left, nearest character first. *)
Definition hyphenated (before text : list ascii) : bool :=
  match text with
  | h :: after =>
      is_hyphen h
      && (match before with
          | a :: b :: rest =>
              (is_letter a && is_letter b)
              || (is_letter a && is_hyphen b && heads is_letter rest)
          | _ => false
          end)
      && (match after with
          | x :: y :: rest =>
              is_letter x && ((is_hyphen y && heads is_letter rest) || is_letter y)
          | _ => false
          end)
  | [] => false
  end.

(** The lazy [nws+?] of the third alternative, having consumed at least
    one character: how many more characters the match takes. *)
Fixpoint word_rest (before text : list ascii) : nat :=
  match text with
  | [] => 0
  | c :: rest =>
      if hyphenated before text then 1
      else if is_whitespace c then 0
      else if heads is_word_punct before && bool_decide (is_Some (em_dash text)) then 0
      else S (word_rest (c :: before) rest)
  end.

(** Length of the match of [wordsep_re] at the start of the non-empty [text]. *)
Definition match_length (before text : list ascii) : nat :=
  match text with
  | [] => 0
  | c :: rest =>
      if is_whitespace c then run_length is_whitespace text
      else match (if heads is_word_punct before then em_dash text else None) with
           | Some k => k
           | None => S (word_rest (c :: before) rest)
           end
  end.

(** [wordsep_re.split(text)] without the empty strings. *)
Fixpoint split_from (fuel : nat) (before text : list ascii) : list (list ascii) :=
  match fuel, text with
  | S fuel', _ :: _ =>
      let n := match_length before text in
      take n text :: split_from fuel' (rev (take n text) ++ before) (drop n text)
  | _, _ => []
  end.

Definition split (text : list ascii) : list (list ascii) :=
  split_from (length text) [] text.

(** *** [_wrap_chunks] *)

(** [chunk.strip()] is empty. *)
Definition blank (chunk : list ascii) : bool := forallb isspace chunk.

(** The inner [while chunks] loop: take the chunks that fit. *)
Fixpoint fill (width : nat) (cur_line : list (list ascii)) (cur_len : nat)
    (chunks : list (list ascii)) : list (list ascii) * nat * list (list ascii) :=
  match chunks with
  | [] => (cur_line, cur_len, [])
  | c :: rest =>
      if cur_len + length c <=? width
      then fill width (cur_line ++ [c]) (cur_len + length c) rest
      else (cur_line, cur_len, chunks)
  end.

(** [chunk.rfind] of the hyphen within [chunk[0:stop]]; [None] stands for -1. *)
Fixpoint rfind_hyphen (chunk : list ascii) (stop : nat) : option nat :=
  match stop, chunk with
  | S stop', c :: rest =>
      match rfind_hyphen rest stop' with
      | Some i => Some (S i)
      | None => if is_hyphen c then Some 0 else None
      end
  | _, _ => None
  end.

Definition handle_long_word (chunks cur_line : list (list ascii)) (cur_len width : nat)
  : list (list ascii) * list (list ascii) :=
  let space_left := if width <? 1 then 1 else width - cur_len in
  match chunks with
  | chunk :: rest =>
      let end_ :=
        if space_left <? length chunk then
          match rfind_hyphen chunk space_left with
          | Some hyphen =>
              if (0 <? hyphen) && existsb (fun c => negb (is_hyphen c)) (take hyphen chunk)
              then hyphen + 1 else space_left
          | None => space_left
          end
        else space_left in
      (cur_line ++ [take end_ chunk], drop end_ chunk :: rest)
  | [] => (cur_line, chunks)
  end.

(** One pass of the outer [while chunks] loop: the line it appends, if
    any, and the chunks left.  [started] says whether a line has been
    produced before. *)
Definition wrap_line (width : nat) (started : bool) (chunks : list (list ascii))
  : option (list ascii) * list (list ascii) :=
  let chunks :=
    match chunks with
    | c :: rest => if blank c && started then rest else chunks
    | [] => chunks
    end in
  let '(cur_line, cur_len, chunks) := fill width [] 0 chunks in
  let '(cur_line, chunks) :=
    match chunks with
    | c :: _ => if width <? length c
                then handle_long_word chunks cur_line cur_len width
                else (cur_line, chunks)
    | [] => (cur_line, chunks)
    end in
  let cur_line :=
    match last cur_line with
    | Some c => if blank c then removelast cur_line else cur_line
    | None => cur_line
    end in
  (match cur_line with [] => None | _ => Some (concat cur_line) end, chunks).

Definition weight (chunks : list (list ascii)) : nat :=
  length chunks + length (concat chunks).

Fixpoint wrap_loop (fuel width : nat) (lines : list (list ascii)) (chunks : list (list ascii))
  : list (list ascii) :=
  match fuel, chunks with
  | S fuel', _ :: _ =>
      let '(line, chunks') := wrap_line width (negb (bool_decide (lines = []))) chunks in
      wrap_loop fuel' width (lines ++ option_list line) chunks'
  | _, _ => lines
  end.

Definition wrap_chunks (width : nat) (chunks : list (list ascii)) : list (list ascii) :=
  wrap_loop (weight chunks) width [] chunks.

Definition wrap_lines (text : list ascii) (width : nat) : list (list ascii) :=
  wrap_chunks width (split (munge_whitespace text)).

(** *** The parts of one pass, named for the proofs *)

(** Where [handle_long_word] cuts the chunk. *)
Definition cut (chunk : list ascii) (cur_len width : nat) : nat :=
  let space_left := if width <? 1 then 1 else width - cur_len in
  if space_left <? length chunk then
    match rfind_hyphen chunk space_left with
    | Some hyphen =>
        if (0 <? hyphen) && existsb (fun c => negb (is_hyphen c)) (take hyphen chunk)
        then hyphen + 1 else space_left
    | None => space_left
    end
  else space_left.

(** The current line before and after its trailing blank chunk is
    dropped. *)
Definition trimmed (cur_line : list (list ascii)) : list (list ascii) :=
  match last cur_line with
  | Some c => if blank c then removelast cur_line else cur_line
  | None => cur_line
  end.

Definition line_of (cur_line : list (list ascii)) : option (list ascii) :=
  match cur_line with
  | [] => None
  | _ => Some (concat cur_line)
  end.

Definition dropped (started : bool) (chunks : list (list ascii)) : list (list ascii) :=
  match chunks with
  | c :: rest => if blank c && started then rest else chunks
  | [] => chunks
  end.


(** *** Words

    The words of a text are its maximal runs of characters that are not
    whitespace. *)
Fixpoint words (text : list ascii) : list (list ascii) :=
  match text with
  | [] => []
  | c :: rest =>
      if is_whitespace c then words rest
      else if heads is_whitespace rest then [c] :: words rest
      else match words rest with
           | w :: ws => (c :: w) :: ws
           | [] => [[c]]
           end
  end.

(** A chunk that starts a word. *)
Definition wordy (chunk : list ascii) : bool :=
  match chunk with
  | c :: _ => negb (is_whitespace c)
  | [] => false
  end.


(** No two neighbouring chunks both start a word. *)
Fixpoint separated (chunks : list (list ascii)) : Prop :=
  match chunks with
  | c :: (d :: _) as rest => (wordy c = true -> wordy d = false) /\ separated rest
  | _ => True
  end.


Definition lines (text : string) (width : nat) : list string :=
  string_of_list_ascii <$> wrap_lines (list_ascii_of_string text) width.

(** [textwrap.wrap(text, width=width)]; a width that is not positive is
    refused. *)
Definition wrap (text : string) (width : nat) : res (list string) :=
  if width =? 0 then Raise ValueError else Ok (lines text width).


Definition words_of (text : string) : list (list ascii) := words (list_ascii_of_string text).

(** The chunks [TextWrapper._split] makes of a text, after its
    whitespace has been munged. *)
Definition chunks_of (text : string) : list (list ascii) :=
  split (munge_whitespace (list_ascii_of_string text)).

(** The word pieces of a text: its chunks that are not whitespace.  A
    piece is a whole word, unless [wordsep_re] cuts the word: after a
    hyphen between letters, or around a run of two or more hyphens. *)
Definition pieces (text : string) : list (list ascii) := List.filter wordy (chunks_of text).

(** [wordsep_re] cuts no word of the text: between two word chunks
    there is always a whitespace chunk. *)
Definition whole_words (text : string) : Prop := separated (chunks_of text).

(** No hyphen is directly followed by a [\w] character (a letter, a
    digit or an underscore). *)
Fixpoint hyphens_closed (text : list ascii) : bool :=
  match text with
  | h :: (x :: _) as rest => negb (is_hyphen h && is_word_char x) && hyphens_closed rest
  | _ => true
  end.

Definition no_hyphen_before_word_char (text : string) : bool :=
  hyphens_closed (list_ascii_of_string text).


End Textwrap.

Definition newline : string := String (ascii_of_nat 10) EmptyString.

(** ** Vocabulary of the specification *)

(** The text of a table cell: the wrapped lines joined by newlines. *)
Definition cell (text : string) (width : nat) : string :=
  join newline (Textwrap.lines text width).


Definition is_print (e : event) : bool :=
  match e with
  | EvSecho _ _ | EvTable _ => true
  | _ => false
  end.

Definition is_table (e : event) : bool :=
  match e with
  | EvTable _ => true
  | _ => false
  end.

Definition is_request (e : event) : bool :=
  match e with
  | EvGet _ _ _ => true
  | _ => false
  end.

Definition is_short (e : event) : bool :=
  match e with
  | EvShort _ => true
  | _ => false
  end.

(** What a run has printed. *)
Definition printed (tr : list event) : list event := List.filter is_print tr.

(** The discriminant of line 34 on a dictionary. *)
Definition trending_shape (d : gmap string val) : Prop :=
  is_Some (d !! "name") /\ is_Some (d !! "webSearchUrl").

(** The keys trending normalization writes. *)
Definition normalized_key (k : string) : Prop :=
  k = "title"%string \/ k = "url"%string \/ k = "description"%string.

(** How the store may change while articles are cleaned: only the three
    normalized keys of dictionaries of trending shape are written. *)
Definition evolves (h h' : gmap loc (gmap string val)) : Prop :=
  forall l,
    (forall k, ~ normalized_key k -> deref h' l !! k = deref h l !! k) /\
    (~ trending_shape (deref h l) -> deref h' l = deref h l).

(** The two shapes of article record of the data model, with the texts
    and the address their row is built from. *)
Inductive article (h : gmap loc (gmap string val)) : val -> string -> string -> val -> Prop :=
| standard_article l name description url :
    deref h l !! "name" = Some (VStr name) ->
    deref h l !! "description" = Some (VStr description) ->
    deref h l !! "url" = Some url ->
    deref h l !! "webSearchUrl" = None ->
    article h (VDict l) name description url
| trending_article l name web_search_url li lp others provider_name provider_type :
    deref h l !! "name" = Some (VStr name) ->
    deref h l !! "webSearchUrl" = Some web_search_url ->
    deref h l !! "image" = Some (VDict li) ->
    deref h li !! "provider" = Some (VList (VDict lp :: others)) ->
    deref h lp !! "name" = Some (VStr provider_name) ->
    deref h lp !! "_type" = Some (VStr provider_type) ->
    article h (VDict l) name
      ("Provided by " +:+ provider_name +:+ ", an " +:+ provider_type +:+ ".")
      web_search_url.

(** What a computation adds to the trace: only events that satisfy [P]. *)
Definition appends {A} (P : event -> Prop) (m : M A) : Prop :=
  forall s r s', m s = (r, s') -> exists evs, trace s' = trace s ++ evs /\ Forall P evs.

(** What a computation does to the store: it keeps the invariant [I]. *)
Definition preserves {A} (I : gmap loc (gmap string val) -> Prop) (m : M A) : Prop :=
  forall s r s', I (store s) -> m s = (r, s') -> I (store s').

(** The lines of a cell: the parts of its text between newline
    characters, [text.split(newline)]. *)
Fixpoint split_lines (text : string) : list string :=
  match text with
  | EmptyString => [EmptyString]
  | String c rest =>
      if Ascii.eqb c (ascii_of_nat 10) then EmptyString :: split_lines rest
      else match split_lines rest with
           | line :: more => String c line :: more
           | [] => [String c EmptyString]
           end
  end.

(** ** Sample data for the examples *)

Definition sample_environ : gmap string string :=
  list_to_map [("BING_SEARCH_KEY"%string, "0123abcd"%string);
               ("BING_SEARCH_ENDPOINT"%string, "https://api.example/"%string)].

(** A shortener that answers every call. *)
Definition sample_short (tr : list event) (url : val) : res string :=
  Ok "https://qps.ru/x"%string.

(** A shortener that is out of service. *)
Definition failing_short (tr : list event) (url : val) : res string :=
  Raise (ExternalError "ShorteningErrorException").

Definition sample_str_compound (h : gmap loc (gmap string val)) (v : val) : string :=
  "<object>"%string.

Definition sample_description : string :=
  "Parliament postpones the vote on the budget until the end of the month"%string.

(** Dictionary 0 is a response with a standard article (1) and a
    trending article (2, with image 3 and provider 4); 5 is a trending
    article whose provider list (in 6) is empty; 7 is a response without
    [value]; 8 is a response that lists 1, 5 and 2. *)
Definition sample_store : gmap loc (gmap string val) :=
  list_to_map
    [(0%nat, list_to_map [("value"%string, VList [VDict 1; VDict 2]);
                          ("totalEstimatedMatches"%string, VInt 2)]);
     (1%nat, list_to_map [("name"%string, VStr "Budget vote delayed");
                          ("description"%string, VStr sample_description);
                          ("url"%string, VStr "https://news.example/budget")]);
     (2%nat, list_to_map [("name"%string, VStr "Storm warning");
                          ("webSearchUrl"%string, VStr "https://bing.example/storm");
                          ("image"%string, VDict 3)]);
     (3%nat, list_to_map [("provider"%string, VList [VDict 4])]);
     (4%nat, list_to_map [("name"%string, VStr "Reuters");
                          ("_type"%string, VStr "Organization")]);
     (5%nat, list_to_map [("name"%string, VStr "Election");
                          ("webSearchUrl"%string, VStr "https://bing.example/election");
                          ("image"%string, VDict 6)]);
     (6%nat, list_to_map [("provider"%string, VList [])]);
     (7%nat, list_to_map [("_type"%string, VStr "ErrorResponse")]);
     (8%nat, list_to_map [("value"%string, VList [VDict 1; VDict 5; VDict 2])])].

Definition sample_state : state := State sample_store [].

(** A server that answers every request with the same status and body. *)
Definition answering (status : Z) (status_reason : string)
    (body : res (val * gmap loc (gmap string val)))
    (tr : list event) (url : string) (headers : list (string * string))
    (params : list (string * val)) : res response :=
  Ok (Response status status_reason url body).

(** A body that is not JSON. *)
Definition no_json : res (val * gmap loc (gmap string val)) :=
  Raise (ExternalError "JSONDecodeError").

(** A body that decodes to a response without articles. *)
Definition empty_result : res (val * gmap loc (gmap string val)) :=
  Ok (VDict 0, list_to_map [(0%nat, list_to_map [("value"%string, VList [])])]).

(** A description made of one word of 61 letters. *)
Definition long_word : string :=
  "aaaaaaaaaaaaaaaaaaaaaaaaaaaaaaaaaaaaaaaaaaaaaaaaaaaaaaaaaaaaa"%string.

Definition long_word_store : gmap loc (gmap string val) :=
  list_to_map
    [(0%nat, list_to_map [("name"%string, VStr "Headline");
                          ("description"%string, VStr long_word);
                          ("url"%string, VStr "https://news.example/a")])].


Definition hyphenated_name : string :=
  "Ministers reopen the stalled and long-running budget talks"%string.


(** ** Sample data for the edge cases *)

(** A server that cannot be reached. *)
Definition unreachable (tr : list event) (url : string) (headers : list (string * string))
    (params : list (string * val)) : res response :=
  Raise (ExternalError "ConnectionError").

(** A shortener that refuses the call with an HTTP error. *)
Definition refusing_short (tr : list event) (url : val) : res string :=
  Raise (HTTPError "429 Client Error: Too Many Requests for url: https://qps.ru/api").

(** The body of a successful answer: the sample response and its
    dictionaries. *)
Definition sample_body : res (val * gmap loc (gmap string val)) :=
  Ok (VDict 0, sample_store).

(** Dictionary 0 is a response with one standard article (1) and a
    total; 2 is a record that has only a name; 3 is a trending record
    whose provider (5, listed in image 4) has a type but no name; 6 is a
    response whose [value] is [None]; 7 is a response that lists a
    string after article 1. *)
Definition edge_store : gmap loc (gmap string val) :=
  list_to_map
    [(0%nat, list_to_map [("value"%string, VList [VDict 1]);
                          ("totalEstimatedMatches"%string, VInt 1200)]);
     (1%nat, list_to_map [("name"%string, VStr "Budget vote delayed");
                          ("description"%string, VStr sample_description);
                          ("url"%string, VStr "https://news.example/budget")]);
     (2%nat, list_to_map [("name"%string, VStr "Untitled")]);
     (3%nat, list_to_map [("name"%string, VStr "Heat wave");
                          ("webSearchUrl"%string, VStr "https://bing.example/heat");
                          ("image"%string, VDict 4)]);
     (4%nat, list_to_map [("provider"%string, VList [VDict 5])]);
     (5%nat, list_to_map [("_type"%string, VStr "Organization")]);
     (6%nat, list_to_map [("value"%string, VNone)]);
     (7%nat, list_to_map [("value"%string, VList [VDict 1; VStr "stray"])])].

Definition edge_state : state := State edge_store [].

(** A shortener whose answer depends on what happened before the call:
    it numbers its links by the calls already made. *)
Definition numbering_short (tr : list event) (url : val) : res string :=
  Ok ("https://qps.ru/" +:+ string_of_Z (Z.of_nat (length (List.filter is_short tr)))).

(** ** The script *)

Section Program.

(** [os.environ], after [load_dotenv()]. *)
Variable environ : gmap string string.

(** What [requests.get(url, headers=headers, params=params)] answers
    (through the installed cache or the network), given everything
    that happened before the call. *)
Variable requests_get :
  list event -> string -> list (string * string) -> list (string * val) -> res response.

(** What the link shortener, [shortener.qpsru.short(url)], answers,
    given everything that happened before the call. *)
Variable short : list event -> val -> res string.

(** [str(v)] for floats, lists and dictionaries. *)
Variable str_compound : gmap loc (gmap string val) -> val -> string.

(** [str(v)], as the f-strings apply it. *)
Definition py_str (h : gmap loc (gmap string val)) (v : val) : string :=
  match v with
  | VStr s => s
  | VNone => "None"
  | VBool true => "True"
  | VBool false => "False"
  | VInt z => string_of_Z z
  | _ => str_compound h v
  end.

Definition format (v : val) : M string := fun s => (Ok (py_str (store s) v), s).

Definition shortener_short (url : val) : M string :=
  fun s => (short (trace s) url, State (store s) (trace s ++ [EvShort url])).

Definition requests_get_call (url : string) (headers : list (string * string))
    (params : list (string * val)) : M response :=
  fun s => (requests_get (trace s) url headers params,
            State (store s) (trace s ++ [EvGet url headers params])).

(** [response.json()]. *)
Definition json (r : response) : M val :=
  fun s => match response_json r with
           | Ok (v, objects) => (Ok v, State (objects ∪ store s) (trace s))
           | Raise e => (Raise e, s)
           end.

(** [response.raise_for_status()]. *)
Definition raise_for_status (r : response) : M unit :=
  if (400 <=? status_code r) && (status_code r <? 500) then
    raise (HTTPError (string_of_Z (status_code r) +:+ " Client Error: " +:+ reason r
                      +:+ " for url: " +:+ response_url r))
  else if (500 <=? status_code r) && (status_code r <? 600) then
    raise (HTTPError (string_of_Z (status_code r) +:+ " Server Error: " +:+ reason r
                      +:+ " for url: " +:+ response_url r))
  else ret tt.

(** [newline.join(textwrap.wrap(text, width=width))]. *)
Definition wrap_cell (text : val) (width : nat) : M string :=
  match text with
  | VStr t => let* lines := lift (Textwrap.wrap t width) in ret (join newline lines)
  | _ => raise AttributeError
  end.

Definition clean_trending_article_dictionary (article_dictionary : val) : M val :=
  let* image := getitem article_dictionary "image" in
  let* provider := getitem image "provider" in
  let* source := getitem_0 provider in
  let* name := getitem article_dictionary "name" in
  let* _ := setitem article_dictionary "title" name in
  let* web_search_url := getitem article_dictionary "webSearchUrl" in
  let* _ := setitem article_dictionary "url" web_search_url in
  let* source_name := getitem source "name" in
  let* source_name := format source_name in
  let* source_type := getitem source "_type" in
  let* source_type := format source_type in
  let* _ := setitem article_dictionary "description"
            (VStr ("Provided by " +:+ source_name +:+ ", an " +:+ source_type +:+ ".")) in
  ret article_dictionary.

(** Lines 36 to 40: the row built from an item. *)
Definition new_dictionary (item : val) : M row :=
  let* name := getitem item "name" in
  let* title := wrap_cell name 40 in
  let* description := getitem item "description" in
  let* description := wrap_cell description 60 in
  let* url := getitem item "url" in
  let* url := shortener_short url in
  ret (Row title description url).

(** The test of line 34. *)
Definition is_trending (item : val) : M bool :=
  let* has_name := contains "name" item in
  if has_name then contains "webSearchUrl" item else ret false.

(** The body of the loop of [clean_bing_article_list]. *)
Definition clean_item (item : val) : M row :=
  let* trending := is_trending item in
  let* item := (if trending then clean_trending_article_dictionary item else ret item) in
  new_dictionary item.

Fixpoint for_each (items : list val) (cleaned_list : list row) : M (list row) :=
  match items with
  | [] => ret cleaned_list
  | item :: rest =>
      let* new := clean_item item in
      for_each rest (cleaned_list ++ [new])
  end.

Definition clean_bing_article_list (bing_article_list : val) : M (list row) :=
  let* items := iterate bing_article_list in
  for_each items [].

Definition print_bing_results (bing_response_json : val) : M unit :=
  let* has_value := contains "value" bing_response_json in
  if negb has_value then raise AssertionError else
  let* articles := getitem bing_response_json "value" in
  let* cleaned_articles := clean_bing_article_list articles in
  let* _ := emit (EvTable cleaned_articles) in
  let* has_total := contains "totalEstimatedMatches" bing_response_json in
  if has_total then
    let* total := getitem bing_response_json "totalEstimatedMatches" in
    let* total := format total in
    emit (EvSecho (total +:+ " estimated matches.") None)
  else ret tt.

Definition getenv (name : string) : option string := environ !! name.

Definition search_and_output_bing (query_string : string) (params : list (string * val))
  : M unit :=
  match getenv "BING_SEARCH_KEY" with
  | None => raise AssertionError
  | Some subscription_key =>
      match getenv "BING_SEARCH_ENDPOINT" with
      | None => raise AssertionError
      | Some bing_search_endpoint =>
          let search_url := bing_search_endpoint +:+ "v7.0/news" +:+ query_string in
          let headers := [("Ocp-Apim-Subscription-Key"%string, subscription_key)] in
          let* response := requests_get_call search_url headers params in
          try_except_HTTPError
            (let* _ := raise_for_status response in
             let* body := json response in
             print_bing_results body)
            (fun error => emit (EvSecho ("Error: " +:+ error) (Some "red"%string)))
      end
  end.

Definition search_bing_by_phrase (search_phrase : string) : M unit :=
  let* _ := emit (EvSecho ("Searching for " +:+ search_phrase +:+ "...") None) in
  search_and_output_bing "/search"
    [("q"%string, VStr search_phrase); ("textDecorations"%string, VBool false)].

Definition search_bing_by_category (category market : string) : M unit :=
  let* _ := emit (EvSecho ("Searching for " +:+ category +:+ " in " +:+ market +:+ "...") None) in
  search_and_output_bing ("?mkt=" +:+ market +:+ "&category=" +:+ category) [].

Definition search_bing_by_trending (market : string) : M unit :=
  let* _ := emit (EvSecho ("Searching for trending topics in " +:+ market +:+ "...") None) in
  search_and_output_bing ("/trendingtopics?mkt=" +:+ market) [].

(** The three subcommands of the [cli] group. *)
Inductive command : Type :=
| Phrase (search_phrase : string)
| Cat (category market : string)
| Trend (market : string).

Definition cli (c : command) : M unit :=
  match c with
  | Phrase search_phrase => search_bing_by_phrase search_phrase
  | Cat category market => search_bing_by_category category market
  | Trend market => search_bing_by_trending market
  end.

(** A run of the script: no dictionary exists and nothing has happened. *)
Definition main (c : command) : res unit * state := cli c (State ∅ []).

(** The exit status of the process: 0 when the command returns, 1 when
    an exception reaches the top level. *)
Definition exit_status (r : res unit) : Z :=
  match r with
  | Ok _ => 0
  | Raise _ => 1
  end.


(** The row an article record yields. *)
Definition row_of (h : gmap loc (gmap string val)) (item : val) (r : row) : Prop :=
  exists name description url,
    article h item name description url /\
    Title r = cell name 40 /\
    Description r = cell description 60 /\
    exists tr, short tr url = Ok (URL r).

(** A row the loop body produced for an item, in some state. *)
Definition built_from (item : val) (r : row) : Prop :=
  exists s1 s2, clean_item item s1 = (Ok r, s2).

(** The URL cells of [rows] are the answers the shortener gave to the
    calls for [urls], one call per row and in this order, the first
    call being made when the trace was [tr] and every later call when
    the trace held the calls before it as well. *)
Fixpoint answered (tr : list event) (urls : list val) (rows : list row) : Prop :=
  match urls, rows with
  | [], [] => True
  | url :: urls', r :: rows' =>
      short tr url = Ok (URL r) /\ answered (tr ++ [EvShort url]) urls' rows'
  | _, _ => False
  end.

(** ** Running the monad *)

Lemma bind_ok {A B} (m : M A) (k : A -> M B) s a s' :
  m s = (Ok a, s') -> bind m k s = k a s'.
Proof. intros H. unfold bind. now rewrite H. Qed.

Lemma bind_raise {A B} (m : M A) (k : A -> M B) s e s' :
  m s = (Raise e, s') -> bind m k s = (Raise e, s').
Proof. intros H. unfold bind. now rewrite H. Qed.

Lemma bind_assoc {A B C} (m : M A) (k : A -> M B) (k' : B -> M C) s :
  bind (bind m k) k' s = bind m (fun a => bind (k a) k') s.
Proof. unfold bind. by destruct (m s) as [[a|e] s1]. Qed.

Lemma bind_inv {A B} (m : M A) (k : A -> M B) s r s' :
  bind m k s = (r, s') ->
  (exists a s1, m s = (Ok a, s1) /\ k a s1 = (r, s')) \/
  (exists e, m s = (Raise e, s') /\ r = Raise e).
Proof.
  unfold bind. destruct (m s) as [[a|e] s1] eqn:E; intros H.
  - left. eauto.
  - right. inversion H; subst. eauto.
Qed.

Lemma getitem_dict s l k x :
  deref (store s) l !! k = Some x -> getitem (VDict l) k s = (Ok x, s).
Proof. intros H. unfold getitem. now rewrite H. Qed.

Lemma getitem_missing s l k :
  deref (store s) l !! k = None -> getitem (VDict l) k s = (Raise (KeyError (VStr k)), s).
Proof. intros H. unfold getitem. now rewrite H. Qed.

Lemma contains_dict_true s l k :
  is_Some (deref (store s) l !! k) -> contains k (VDict l) s = (Ok true, s).
Proof. intros H. unfold contains. now rewrite bool_decide_eq_true_2. Qed.

Lemma contains_dict_false s l k :
  deref (store s) l !! k = None -> contains k (VDict l) s = (Ok false, s).
Proof.
  intros H. unfold contains. rewrite bool_decide_eq_false_2; [done|].
  rewrite H. by intros [? ?].
Qed.

(** ** What a computation adds to the trace *)

Lemma appends_silent {A} (P : event -> Prop) (m : M A) :
  (forall s r s', m s = (r, s') -> trace s' = trace s) -> appends P m.
Proof.
  intros H s r s' E. exists []. rewrite app_nil_r. split; [eauto | constructor].
Qed.

Lemma appends_ret {A} P (a : A) : appends P (ret a).
Proof. apply appends_silent. intros s r s' E. by inversion E. Qed.

Lemma appends_raise {A} P e : appends P (@raise A e).
Proof. apply appends_silent. intros s r s' E. by inversion E. Qed.

Lemma appends_lift {A} P (r : res A) : appends P (lift r).
Proof. apply appends_silent. intros s r' s' E. by inversion E. Qed.

Lemma appends_contains P k v : appends P (contains k v).
Proof.
  apply appends_silent. intros s r s' E. unfold contains in E.
  destruct v; by inversion E.
Qed.

Lemma appends_getitem P v k : appends P (getitem v k).
Proof.
  apply appends_silent. intros s r s' E. unfold getitem in E.
  destruct v; try by inversion E.
  destruct (deref (store s) l !! k); by inversion E.
Qed.

Lemma appends_getitem_0 P v : appends P (getitem_0 v).
Proof.
  apply appends_silent. intros s r s' E. unfold getitem_0 in E.
  destruct v as [| | | |t|items|]; try by inversion E.
  - destruct t; by inversion E.
  - destruct items; by inversion E.
Qed.

Lemma appends_setitem P v k x : appends P (setitem v k x).
Proof.
  apply appends_silent. intros s r s' E. unfold setitem in E.
  destruct v; by inversion E.
Qed.

Lemma appends_iterate P v : appends P (iterate v).
Proof.
  apply appends_silent. intros s r s' E. unfold iterate in E.
  destruct v; by inversion E.
Qed.

Lemma appends_format P v : appends P (format v).
Proof. apply appends_silent. intros s r s' E. by inversion E. Qed.

Lemma appends_json P r : appends P (json r).
Proof.
  apply appends_silent. intros s r' s' E. unfold json in E.
  destruct (response_json r) as [[v objects]|e]; by inversion E.
Qed.

Lemma appends_emit (P : event -> Prop) e : P e -> appends P (emit e).
Proof.
  intros H s r s' E. inversion E; subst. exists [e]. split; [done | by constructor].
Qed.

Lemma appends_shortener_short (P : event -> Prop) url :
  P (EvShort url) -> appends P (shortener_short url).
Proof.
  intros H s r s' E. inversion E; subst. exists [EvShort url]. split; [done | by constructor].
Qed.

Lemma appends_requests_get_call (P : event -> Prop) url headers params :
  P (EvGet url headers params) -> appends P (requests_get_call url headers params).
Proof.
  intros H s r s' E. inversion E; subst. exists [EvGet url headers params].
  split; [done | by constructor].
Qed.

Lemma appends_bind {A B} P (m : M A) (k : A -> M B) :
  appends P m -> (forall a, appends P (k a)) -> appends P (bind m k).
Proof.
  intros Hm Hk s r s' E. apply bind_inv in E as [(a & s1 & E1 & E2)|(e & E1 & ->)].
  - destruct (Hm _ _ _ E1) as (evs1 & T1 & F1).
    destruct (Hk _ _ _ _ E2) as (evs2 & T2 & F2).
    exists (evs1 ++ evs2). rewrite T2, T1, app_assoc. split; [done|].
    by apply Forall_app.
  - eauto.
Qed.

Lemma appends_try {A} P (m : M A) handler :
  appends P m -> (forall msg, appends P (handler msg)) -> appends P (try_except_HTTPError m handler).
Proof.
  intros Hm Hh s r s' E. unfold try_except_HTTPError in E.
  destruct (m s) as [[a|e] s1] eqn:E1.
  - inversion E; subst. eauto.
  - destruct (Hm _ _ _ E1) as (evs1 & T1 & F1).
    destruct e; try (inversion E; subst; eauto; fail).
    destruct (Hh _ _ _ _ E) as (evs2 & T2 & F2).
    exists (evs1 ++ evs2). rewrite T2, T1, app_assoc. split; [done|].
    by apply Forall_app.
Qed.

Lemma appends_weaken {A} (P Q : event -> Prop) (m : M A) :
  (forall e, P e -> Q e) -> appends P m -> appends Q m.
Proof.
  intros HPQ Hm s r s' E. destruct (Hm _ _ _ E) as (evs & T & F).
  exists evs. split; [done|]. eapply Forall_impl; eauto.
Qed.

Create HintDb trace.
#[local] Hint Resolve appends_ret appends_raise appends_lift appends_contains
  appends_getitem appends_getitem_0 appends_setitem appends_iterate appends_format
  appends_json appends_emit appends_shortener_short appends_requests_get_call : trace.

Ltac trace_steps :=
  repeat first
    [ match goal with |- appends _ (bind _ _) => apply appends_bind; [ | intros ? ] end
    | match goal with
      |- appends _ (try_except_HTTPError _ _) => apply appends_try; [ | intros ? ]
      end
    | match goal with |- appends _ (if ?b then _ else _) => destruct b end
    | match goal with |- appends _ (match ?v with _ => _ end) => destruct v end ];
  eauto with trace.

Lemma appends_wrap_cell P text width : appends P (wrap_cell text width).
Proof. unfold wrap_cell. trace_steps. Qed.

Lemma appends_clean_trending P item : appends P (clean_trending_article_dictionary item).
Proof. unfold clean_trending_article_dictionary. trace_steps. Qed.

Lemma appends_new_dictionary (P : event -> Prop) item :
  (forall url, P (EvShort url)) -> appends P (new_dictionary item).
Proof.
  intros H. unfold new_dictionary.
  pose proof appends_wrap_cell. trace_steps.
Qed.

Lemma appends_clean_item (P : event -> Prop) item :
  (forall url, P (EvShort url)) -> appends P (clean_item item).
Proof.
  intros H. unfold clean_item, is_trending.
  pose proof appends_clean_trending. pose proof appends_new_dictionary. trace_steps.
Qed.

Lemma appends_for_each (P : event -> Prop) items cleaned_list :
  (forall url, P (EvShort url)) -> appends P (for_each items cleaned_list).
Proof.
  intros H. revert cleaned_list.
  induction items as [|item rest IH]; intros cleaned_list; simpl.
  - apply appends_ret.
  - apply appends_bind; [by apply appends_clean_item | intros new; apply IH].
Qed.

Lemma appends_clean_bing_article_list (P : event -> Prop) v :
  (forall url, P (EvShort url)) -> appends P (clean_bing_article_list v).
Proof.
  intros H. unfold clean_bing_article_list.
  apply appends_bind; [apply appends_iterate | intros items; by apply appends_for_each].
Qed.

Lemma appends_print_bing_results (P : event -> Prop) v :
  (forall e, is_request e = false -> P e) -> appends P (print_bing_results v).
Proof.
  intros H. unfold print_bing_results.
  assert (forall url, P (EvShort url)) by (intros; by apply H).
  assert (forall rows, P (EvTable rows)) by (intros; by apply H).
  assert (forall m fg, P (EvSecho m fg)) by (intros; by apply H).
  pose proof appends_clean_bing_article_list. trace_steps.
Qed.

Lemma appends_raise_for_status P r : appends P (raise_for_status r).
Proof. unfold raise_for_status. trace_steps. Qed.

(** What follows the request in [search_and_output_bing] issues no
    further request. *)
Lemma appends_after_request r :
  appends (fun e => is_request e = false)
    (try_except_HTTPError
       (let* _ := raise_for_status r in
        let* body := json r in
        print_bing_results body)
       (fun error => emit (EvSecho ("Error: " +:+ error) (Some "red"%string)))).
Proof.
  pose proof appends_raise_for_status. pose proof appends_print_bing_results.
  trace_steps.
Qed.

(** ** Validation of the response *)

(** C2: a response dictionary without the key [value] makes
    [print_bing_results] raise [AssertionError] at its first statement;
    the state it leaves is the state it found, so no article was
    classified, normalized or formatted and nothing was printed. *)
Theorem missing_value_fails_fast s l :
  deref (store s) l !! "value" = None ->
  print_bing_results (VDict l) s = (Raise AssertionError, s).
Proof.
  intros H. unfold print_bing_results.
  rewrite (bind_ok _ _ _ _ _ (contains_dict_false _ _ _ H)). reflexivity.
Qed.

(** ** Dispatch *)

Lemma search_and_output_bing_unconfigured query_string params s :
  environ !! "BING_SEARCH_KEY" = None \/ environ !! "BING_SEARCH_ENDPOINT" = None ->
  search_and_output_bing query_string params s = (Raise AssertionError, s).
Proof.
  intros H. unfold search_and_output_bing, getenv.
  destruct (environ !! "BING_SEARCH_KEY") as [key|]; [|reflexivity].
  destruct H as [H|H]; [discriminate | now rewrite H].
Qed.

(** C8: when [BING_SEARCH_KEY] or [BING_SEARCH_ENDPOINT] is absent from
    the environment, [search_and_output_bing] raises [AssertionError] and
    leaves the state untouched, and each of the three subcommands ends
    with that exception having only printed its announcement: the trace
    gains no request. *)
Theorem missing_configuration_stops_before_request c :
  environ !! "BING_SEARCH_KEY" = None \/ environ !! "BING_SEARCH_ENDPOINT" = None ->
  (forall query_string params s,
      search_and_output_bing query_string params s = (Raise AssertionError, s)) /\
  (forall s, exists message,
      cli c s = (Raise AssertionError, State (store s) (trace s ++ [EvSecho message None])) /\
      List.filter is_request (trace (snd (cli c s))) = List.filter is_request (trace s)).
Proof.
  intros H. split.
  - intros. by apply search_and_output_bing_unconfigured.
  - intros s.
    assert (forall message query_string params,
      (let* _ := emit (EvSecho message None) in search_and_output_bing query_string params) s
      = (Raise AssertionError, State (store s) (trace s ++ [EvSecho message None]))) as E.
    { intros. unfold bind, emit. by rewrite search_and_output_bing_unconfigured. }
    destruct c; simpl; unfold search_bing_by_phrase, search_bing_by_category,
      search_bing_by_trending; eexists; rewrite E; (split; [reflexivity|]);
      simpl; rewrite List.filter_app; simpl; by rewrite app_nil_r.
Qed.

Lemma search_and_output_bing_request query_string params key endpoint s :
  environ !! "BING_SEARCH_KEY" = Some key ->
  environ !! "BING_SEARCH_ENDPOINT" = Some endpoint ->
  exists r s' rest,
    search_and_output_bing query_string params s = (r, s') /\
    trace s' = trace s ++ EvGet (endpoint +:+ "v7.0/news" +:+ query_string)
                            [("Ocp-Apim-Subscription-Key"%string, key)] params :: rest /\
    Forall (fun e => is_request e = false) rest.
Proof.
  intros Hk He. unfold search_and_output_bing, getenv. rewrite Hk, He.
  unfold bind at 1. unfold requests_get_call.
  destruct (requests_get _ _ _ _) as [r|e].
  - match goal with |- context [try_except_HTTPError ?m ?h ?st] =>
      destruct (try_except_HTTPError m h st) as [r' s'] eqn:E end.
    destruct (appends_after_request _ _ _ _ E) as (evs & T & F).
    exists r', s', evs. split; [done|]. split; [|done].
    rewrite T. simpl. by rewrite <- app_assoc.
  - eexists _, _, []. split; [reflexivity|]. split; [done | constructor].
Qed.

(** C7: with the environment configured, the category subcommand
    announces the search and then issues one request, to the address
    made of the endpoint, [v7.0/news] and the query path
    [?mkt=market&category=category], with the subscription key as its only
    header and no query parameters; nothing after it is a request. *)
Theorem category_query_path category market key endpoint s :
  environ !! "BING_SEARCH_KEY" = Some key ->
  environ !! "BING_SEARCH_ENDPOINT" = Some endpoint ->
  exists r s' rest,
    search_bing_by_category category market s = (r, s') /\
    trace s' =
      trace s ++
      EvSecho ("Searching for " +:+ category +:+ " in " +:+ market +:+ "...") None
      :: EvGet (endpoint +:+ "v7.0/news" +:+ ("?mkt=" +:+ market +:+ "&category=" +:+ category))
           [("Ocp-Apim-Subscription-Key"%string, key)] []
      :: rest /\
    Forall (fun e => is_request e = false) rest.
Proof.
  intros Hk He. unfold search_bing_by_category. unfold bind at 1, emit.
  edestruct (search_and_output_bing_request) as (r & s' & rest & E & T & F); [exact Hk|exact He|].
  exists r, s', rest. split; [exact E|]. split; [|exact F].
  rewrite T. simpl. by rewrite <- app_assoc.
Qed.

Lemma raise_for_status_error r s :
  400 <= status_code r < 600 ->
  exists message, raise_for_status r s = (Raise (HTTPError message), s).
Proof.
  intros [H1 H2]. unfold raise_for_status.
  destruct (status_code r <? 500) eqn:E.
  - replace (400 <=? status_code r) with true by (symmetry; apply Z.leb_le; lia).
    simpl. eauto.
  - replace (400 <=? status_code r) with true by (symmetry; apply Z.leb_le; lia).
    replace (500 <=? status_code r) with true
      by (symmetry; apply Z.leb_le; apply Z.ltb_ge in E; lia).
    replace (status_code r <? 600) with true by (symmetry; apply Z.ltb_lt; lia).
    simpl. eauto.
Qed.

Lemma raise_for_status_passes r s :
  status_code r < 400 \/ 600 <= status_code r ->
  raise_for_status r s = (Ok tt, s).
Proof.
  intros H. unfold raise_for_status.
  destruct H as [H|H].
  - replace (400 <=? status_code r) with false by (symmetry; apply Z.leb_gt; lia).
    replace (500 <=? status_code r) with false by (symmetry; apply Z.leb_gt; lia).
    reflexivity.
  - replace (status_code r <? 500) with false by (symmetry; apply Z.ltb_ge; lia).
    replace (status_code r <? 600) with false by (symmetry; apply Z.ltb_ge; lia).
    rewrite !andb_false_r. reflexivity.
Qed.

Lemma search_and_output_bing_http_error query_string params key endpoint r s :
  environ !! "BING_SEARCH_KEY" = Some key ->
  environ !! "BING_SEARCH_ENDPOINT" = Some endpoint ->
  requests_get (trace s) (endpoint +:+ "v7.0/news" +:+ query_string)
    [("Ocp-Apim-Subscription-Key"%string, key)] params = Ok r ->
  400 <= status_code r < 600 ->
  exists message,
    search_and_output_bing query_string params s =
    (Ok tt, State (store s)
              (trace s ++ [EvGet (endpoint +:+ "v7.0/news" +:+ query_string)
                             [("Ocp-Apim-Subscription-Key"%string, key)] params;
                           EvSecho ("Error: " +:+ message) (Some "red"%string)])).
Proof.
  intros Hk He Hr Hs. unfold search_and_output_bing, getenv. rewrite Hk, He.
  unfold bind at 1. unfold requests_get_call. rewrite Hr.
  unfold try_except_HTTPError.
  match goal with |- context [bind (raise_for_status r) _ ?st] =>
    destruct (raise_for_status_error r st Hs) as (message & E) end.
  rewrite (bind_raise _ _ _ _ _ E). exists message.
  unfold emit. simpl. by rewrite <- app_assoc.
Qed.

(** C9, as the code has it: when the environment is configured and the
    server answers with a status from 400 to 599, every subcommand
    returns normally, so the process exits with status 0, having printed
    its announcement, issued its request and printed one message that
    starts with [Error: ] in red; no table is printed and no dictionary
    is created. *)
Theorem http_error_is_reported c key endpoint s :
  environ !! "BING_SEARCH_KEY" = Some key ->
  environ !! "BING_SEARCH_ENDPOINT" = Some endpoint ->
  (forall tr url headers params,
      exists r, requests_get tr url headers params = Ok r /\ 400 <= status_code r < 600) ->
  exists searching request message,
    cli c s = (Ok tt, State (store s)
                        (trace s ++ [EvSecho searching None; request;
                                     EvSecho ("Error: " +:+ message) (Some "red"%string)])) /\
    is_request request = true /\
    exit_status (fst (cli c s)) = 0.
Proof.
  intros Hk He Hget.
  assert (forall searching query_string params, exists request message,
    (let* _ := emit (EvSecho searching None) in search_and_output_bing query_string params) s
    = (Ok tt, State (store s)
                (trace s ++ [EvSecho searching None; request;
                             EvSecho ("Error: " +:+ message) (Some "red"%string)])) /\
    is_request request = true) as E.
  { intros. unfold bind at 1, emit.
    match goal with |- context [search_and_output_bing _ _ ?st] => set (s1 := st) end.
    destruct (Hget (trace s1) (endpoint +:+ "v7.0/news" +:+ query_string)
                [("Ocp-Apim-Subscription-Key"%string, key)] params) as (r & Hr & Hs).
    destruct (search_and_output_bing_http_error query_string params key endpoint r s1
                Hk He Hr Hs) as (message & E).
    eexists _, message. rewrite E. subst s1. simpl. rewrite <- app_assoc. simpl.
    split; reflexivity. }
  destruct c; simpl; unfold search_bing_by_phrase, search_bing_by_category,
    search_bing_by_trending;
    match goal with |- context [emit (EvSecho ?m None)] =>
      match goal with |- context [search_and_output_bing ?q ?ps] =>
        destruct (E m q ps) as (request & message & E1 & E2) end end;
    eexists _, request, message; rewrite E1; auto.
Qed.

(** ** The store under [setitem] *)

Lemma deref_insert_eq (h : gmap loc (gmap string val)) l d : deref (<[l := d]> h) l = d.
Proof. unfold deref. by rewrite lookup_insert_eq. Qed.

Lemma deref_insert_ne (h : gmap loc (gmap string val)) l l' d :
  l <> l' -> deref (<[l := d]> h) l' = deref h l'.
Proof. intros H. unfold deref. by rewrite lookup_insert_ne. Qed.

(** Writing key [k'] of some dictionary leaves every other key of every
    dictionary as it was, whether or not the two are the same object. *)
Lemma deref_setitem_other_key (h : gmap loc (gmap string val)) l l' k k' x :
  k <> k' -> deref (<[l := <[k' := x]> (deref h l)]> h) l' !! k = deref h l' !! k.
Proof.
  intros H. destruct (decide (l = l')) as [->|Hl].
  - rewrite deref_insert_eq. by rewrite lookup_insert_ne.
  - by rewrite deref_insert_ne.
Qed.

Lemma setitem_dict s l k x :
  setitem (VDict l) k x s =
  (Ok tt, State (<[l := <[k := x]> (deref (store s) l)]> (store s)) (trace s)).
Proof. reflexivity. Qed.

(** ** Trending normalization *)

Lemma clean_trending_run s l li lp others n w pn pt :
  deref (store s) l !! "name" = Some n ->
  deref (store s) l !! "webSearchUrl" = Some w ->
  deref (store s) l !! "image" = Some (VDict li) ->
  deref (store s) li !! "provider" = Some (VList (VDict lp :: others)) ->
  deref (store s) lp !! "name" = Some pn ->
  deref (store s) lp !! "_type" = Some pt ->
  let d1 := <["url" := w]> (<["title" := n]> (deref (store s) l)) in
  let h1 := <[l := d1]> (store s) in
  let text := ("Provided by " +:+ py_str h1 pn +:+ ", an " +:+ py_str h1 pt +:+ ".")%string in
  clean_trending_article_dictionary (VDict l) s =
  (Ok (VDict l), State (<[l := <["description" := VStr text]> d1]> (store s)) (trace s)).
Proof.
  intros Hn Hw Hi Hp Hpn Hpt d1 h1 text.
  unfold clean_trending_article_dictionary.
  rewrite (bind_ok _ _ _ _ _ (getitem_dict _ _ _ _ Hi)).
  rewrite (bind_ok _ _ _ _ _ (getitem_dict _ _ _ _ Hp)).
  unfold bind at 1. simpl getitem_0. cbv beta iota.
  rewrite (bind_ok _ _ _ _ _ (getitem_dict _ _ _ _ Hn)).
  rewrite (bind_ok _ _ _ _ _ (setitem_dict _ _ _ _)).
  erewrite bind_ok; cycle 1.
  { apply getitem_dict. simpl. rewrite deref_setitem_other_key by done. exact Hw. }
  rewrite (bind_ok _ _ _ _ _ (setitem_dict _ _ _ _)). simpl store. simpl trace.
  rewrite deref_insert_eq, insert_insert_eq. fold d1. fold h1.
  assert (forall k, k <> "title"%string -> k <> "url"%string ->
                    deref h1 lp !! k = deref (store s) lp !! k) as Hlp.
  { intros k H1 H2. subst h1 d1. destruct (decide (l = lp)) as [->|Hl].
    - rewrite deref_insert_eq. by rewrite !lookup_insert_ne.
    - by rewrite deref_insert_ne. }
  erewrite bind_ok; cycle 1.
  { apply getitem_dict. simpl. rewrite Hlp by done. exact Hpn. }
  unfold bind at 1, format. simpl store.
  erewrite bind_ok; cycle 1.
  { apply getitem_dict. simpl. rewrite Hlp by done. exact Hpt. }
  unfold bind at 1. simpl store.
  rewrite (bind_ok _ _ _ _ _ (setitem_dict _ _ _ _)). simpl store. simpl trace.
  subst h1. rewrite deref_insert_eq, insert_insert_eq. reflexivity.
Qed.

(** C4: for a dictionary with [name], [webSearchUrl] and an [image]
    whose [provider] list starts with a dictionary that has [name] and
    [_type], normalization returns normally and leaves, in that
    dictionary, [url] equal to the value of [webSearchUrl] and
    [description] equal to the text made of [Provided by ], the provider
    name, [, an ], the provider type and a full stop. *)
Theorem trending_url_and_description s l li lp others n w pn pt :
  deref (store s) l !! "name" = Some n ->
  deref (store s) l !! "webSearchUrl" = Some w ->
  deref (store s) l !! "image" = Some (VDict li) ->
  deref (store s) li !! "provider" = Some (VList (VDict lp :: others)) ->
  deref (store s) lp !! "name" = Some (VStr pn) ->
  deref (store s) lp !! "_type" = Some (VStr pt) ->
  exists s',
    clean_trending_article_dictionary (VDict l) s = (Ok (VDict l), s') /\
    deref (store s') l !! "url" = Some w /\
    deref (store s') l !! "description" =
      Some (VStr ("Provided by " +:+ pn +:+ ", an " +:+ pt +:+ ".")).
Proof.
  intros Hn Hw Hi Hp Hpn Hpt.
  eexists. split.
  - eapply clean_trending_run; eassumption.
  - simpl. rewrite deref_insert_eq. split.
    + rewrite lookup_insert_ne by done. by rewrite lookup_insert_eq.
    + by rewrite lookup_insert_eq.
Qed.

(** ** Classification *)

Lemma is_trending_dict s l :
  is_trending (VDict l) s =
  (Ok (bool_decide (trending_shape (deref (store s) l))), s).
Proof.
  unfold is_trending, trending_shape, bind, contains, ret.
  destruct (decide (is_Some (deref (store s) l !! "name"))) as [H1|H1].
  - rewrite (bool_decide_eq_true_2 _ H1).
    destruct (decide (is_Some (deref (store s) l !! "webSearchUrl"))) as [H2|H2].
    + by rewrite !bool_decide_eq_true_2.
    + rewrite (bool_decide_eq_false_2 _ H2). rewrite bool_decide_eq_false_2; tauto.
  - rewrite (bool_decide_eq_false_2 _ H1). rewrite bool_decide_eq_false_2; tauto.
Qed.

Lemma clean_item_trending s l :
  trending_shape (deref (store s) l) ->
  clean_item (VDict l) s =
  (let* item := clean_trending_article_dictionary (VDict l) in new_dictionary item) s.
Proof.
  intros H. unfold clean_item.
  rewrite (bind_ok _ _ _ _ _ (is_trending_dict _ _)).
  by rewrite bool_decide_eq_true_2.
Qed.

Lemma clean_item_standard s l :
  ~ trending_shape (deref (store s) l) ->
  clean_item (VDict l) s = new_dictionary (VDict l) s.
Proof.
  intros H. unfold clean_item.
  rewrite (bind_ok _ _ _ _ _ (is_trending_dict _ _)).
  by rewrite bool_decide_eq_false_2.
Qed.

(** ** What a computation does to the store *)

Lemma preserves_silent {A} I (m : M A) :
  (forall s r s', m s = (r, s') -> store s' = store s) -> preserves I m.
Proof. intros H s r s' HI E. by rewrite (H _ _ _ E). Qed.

Lemma preserves_ret {A} I (a : A) : preserves I (ret a).
Proof. apply preserves_silent. intros s r s' E. by inversion E. Qed.

Lemma preserves_raise {A} I e : preserves I (@raise A e).
Proof. apply preserves_silent. intros s r s' E. by inversion E. Qed.

Lemma preserves_lift {A} I (r : res A) : preserves I (lift r).
Proof. apply preserves_silent. intros s r' s' E. by inversion E. Qed.

Lemma preserves_contains I k v : preserves I (contains k v).
Proof.
  apply preserves_silent. intros s r s' E. unfold contains in E.
  destruct v; by inversion E.
Qed.

Lemma preserves_getitem I v k : preserves I (getitem v k).
Proof.
  apply preserves_silent. intros s r s' E. unfold getitem in E.
  destruct v; try by inversion E.
  destruct (deref (store s) l !! k); by inversion E.
Qed.

Lemma preserves_getitem_0 I v : preserves I (getitem_0 v).
Proof.
  apply preserves_silent. intros s r s' E. unfold getitem_0 in E.
  destruct v as [| | | |t|items|]; try by inversion E.
  - destruct t; by inversion E.
  - destruct items; by inversion E.
Qed.

Lemma preserves_iterate I v : preserves I (iterate v).
Proof.
  apply preserves_silent. intros s r s' E. unfold iterate in E.
  destruct v; by inversion E.
Qed.

Lemma preserves_format I v : preserves I (format v).
Proof. apply preserves_silent. intros s r s' E. by inversion E. Qed.

Lemma preserves_emit I e : preserves I (emit e).
Proof. apply preserves_silent. intros s r s' E. by inversion E. Qed.

Lemma preserves_shortener_short I url : preserves I (shortener_short url).
Proof. apply preserves_silent. intros s r s' E. by inversion E. Qed.

Lemma preserves_bind {A B} I (m : M A) (k : A -> M B) :
  preserves I m -> (forall a, preserves I (k a)) -> preserves I (bind m k).
Proof.
  intros Hm Hk s r s' HI E. apply bind_inv in E as [(a & s1 & E1 & E2)|(e & E1 & ->)].
  - eapply Hk; [|exact E2]. eapply Hm; eauto.
  - eapply Hm; eauto.
Qed.

Create HintDb store.
#[local] Hint Resolve preserves_ret preserves_raise preserves_lift preserves_contains
  preserves_getitem preserves_getitem_0 preserves_iterate preserves_format
  preserves_emit preserves_shortener_short : store.

Ltac store_steps :=
  repeat first
    [ match goal with |- preserves _ (bind _ _) => apply preserves_bind; [ | intros ? ] end
    | match goal with |- preserves _ (if ?b then _ else _) => destruct b end
    | match goal with |- preserves _ (match ?v with _ => _ end) => destruct v end ];
  eauto with store.

Lemma preserves_wrap_cell I text width : preserves I (wrap_cell text width).
Proof. unfold wrap_cell. store_steps. Qed.

Lemma preserves_new_dictionary I item : preserves I (new_dictionary item).
Proof. unfold new_dictionary. pose proof preserves_wrap_cell. store_steps. Qed.

Lemma preserves_is_trending I item : preserves I (is_trending item).
Proof. unfold is_trending. store_steps. Qed.

(** [evolves] is a preorder that keeps the shape of every dictionary. *)
Lemma evolves_refl h : evolves h h.
Proof. intros l. split; auto. Qed.

Lemma evolves_shape h h' l :
  evolves h h' -> trending_shape (deref h' l) <-> trending_shape (deref h l).
Proof.
  intros H. destruct (H l) as [Hk _]. unfold trending_shape.
  rewrite !Hk; [tauto | |]; intros [?|[?|?]]; discriminate.
Qed.

Lemma evolves_trans h1 h2 h3 : evolves h1 h2 -> evolves h2 h3 -> evolves h1 h3.
Proof.
  intros H12 H23 l. destruct (H12 l) as [K12 S12]. destruct (H23 l) as [K23 S23]. split.
  - intros k Hk. rewrite K23, K12; auto.
  - intros Hs. rewrite S23, S12; auto. by rewrite (evolves_shape h1 h2 l H12).
Qed.

Lemma evolves_setitem h l k x :
  normalized_key k -> trending_shape (deref h l) ->
  evolves h (<[l := <[k := x]> (deref h l)]> h).
Proof.
  intros Hk Hs l'. split.
  - intros k' Hk'. apply deref_setitem_other_key. intros ->. by apply Hk'.
  - intros Hs'. destruct (decide (l = l')) as [->|Hl]; [tauto|]. by rewrite deref_insert_ne.
Qed.

Lemma preserves_setitem_normalized h0 item k x :
  normalized_key k ->
  (forall l, item = VDict l -> trending_shape (deref h0 l)) ->
  preserves (evolves h0) (setitem item k x).
Proof.
  intros Hk Hs s r s' HI E. unfold setitem in E.
  destruct item; inversion E; subst; try done. simpl.
  eapply evolves_trans; [exact HI|]. apply evolves_setitem; [done|].
  apply (evolves_shape h0 (store s) l HI). by apply Hs.
Qed.

Lemma clean_trending_evolves item s r s' :
  (forall l, item = VDict l -> trending_shape (deref (store s) l)) ->
  clean_trending_article_dictionary item s = (r, s') ->
  evolves (store s) (store s').
Proof.
  intros Hs E.
  assert (preserves (evolves (store s)) (clean_trending_article_dictionary item)) as H.
  { unfold clean_trending_article_dictionary.
    assert (forall k x, normalized_key k -> preserves (evolves (store s)) (setitem item k x))
      by (intros; by apply preserves_setitem_normalized).
    unfold normalized_key in *. store_steps. }
  eapply H; [apply evolves_refl | exact E].
Qed.

Lemma is_trending_true item s s' :
  is_trending item s = (Ok true, s') ->
  s' = s /\ forall l, item = VDict l -> trending_shape (deref (store s) l).
Proof.
  intros E. destruct item as [| | | |t|items|l].
  1-4: discriminate E.
  - unfold is_trending, bind, contains, ret in E.
    destruct (is_substring "name" t); [|discriminate E].
    inversion E; subst. split; [done|intros ? [=]].
  - unfold is_trending, bind, contains, ret in E.
    destruct (existsb (is_str "name") items); [|discriminate E].
    inversion E; subst. split; [done|intros ? [=]].
  - rewrite is_trending_dict in E. injection E as Hb <-. split; [done|].
    intros l' [= <-]. eapply bool_decide_eq_true_1, Hb.
Qed.

Lemma is_trending_state item s r s' : is_trending item s = (r, s') -> s' = s.
Proof.
  intros E. unfold is_trending, bind, contains, ret in E.
  destruct item; simpl in E;
    repeat match type of E with
           | context [if ?b then _ else _] => destruct b
           end; by inversion E.
Qed.

Lemma clean_item_evolves item s r s' :
  clean_item item s = (r, s') -> evolves (store s) (store s').
Proof.
  intros E. unfold clean_item in E.
  apply bind_inv in E as [(b & s1 & E1 & E)|(e & E1 & ->)].
  - pose proof (is_trending_state _ _ _ _ E1) as ->.
    apply bind_inv in E as [(item' & s2 & E2 & E)|(e & E2 & ->)].
    + assert (evolves (store s) (store s2)) as H2.
      { destruct b.
        - apply is_trending_true in E1 as [_ Hs]. eapply clean_trending_evolves; eauto.
        - inversion E2; subst. apply evolves_refl. }
      eapply evolves_trans; [exact H2|].
      eapply (preserves_new_dictionary (evolves (store s2))); [apply evolves_refl | exact E].
    + destruct b.
      * apply is_trending_true in E1 as [_ Hs]. eapply clean_trending_evolves; eauto.
      * inversion E2.
  - pose proof (is_trending_state _ _ _ _ E1) as ->. apply evolves_refl.
Qed.

Lemma for_each_evolves items cleaned_list s r s' :
  for_each items cleaned_list s = (r, s') -> evolves (store s) (store s').
Proof.
  revert cleaned_list s. induction items as [|item rest IH]; intros cleaned_list s E; simpl in E.
  - inversion E; subst. apply evolves_refl.
  - apply bind_inv in E as [(new & s1 & E1 & E)|(e & E1 & ->)].
    + eapply evolves_trans; [eapply clean_item_evolves; eauto | eapply IH; eauto].
    + eapply clean_item_evolves; eauto.
Qed.

(** An article record stays the same article record while the store
    evolves. *)
Lemma article_evolves h h' item name description url :
  evolves h h' -> article h item name description url -> article h' item name description url.
Proof.
  intros H A.
  assert (forall l k, ~ normalized_key k -> deref h' l !! k = deref h l !! k) as K
    by (intros l k; apply (H l)).
  assert (forall k, (k = "name" \/ k = "webSearchUrl" \/ k = "image" \/ k = "provider"
                     \/ k = "_type")%string -> ~ normalized_key k) as N
    by (intros k [->|[->|[->|[->| ->]]]] [?|[?|?]]; discriminate).
  destruct A as [l name description url Hn Hd Hu Hw
                |l name w li lp others pn pt Hn Hw Hi Hp Hpn Hpt].
  - assert (deref h' l = deref h l) as E.
    { apply (H l). intros [_ [x Hx]]. congruence. }
    apply standard_article; by rewrite E.
  - eapply trending_article; rewrite K by (apply N; tauto); eassumption.
Qed.

(** ** Row construction *)

Lemma wrap_cell_str t width s :
  width <> 0%nat -> wrap_cell (VStr t) width s = (Ok (cell t width), s).
Proof.
  intros H. unfold wrap_cell, bind, lift, Textwrap.wrap.
  destruct width; [done|]. reflexivity.
Qed.

Lemma shortener_short_run url s :
  shortener_short url s = (short (trace s) url, State (store s) (trace s ++ [EvShort url])).
Proof. reflexivity. Qed.

Lemma new_dictionary_run s l n d u :
  deref (store s) l !! "name" = Some (VStr n) ->
  deref (store s) l !! "description" = Some (VStr d) ->
  deref (store s) l !! "url" = Some u ->
  new_dictionary (VDict l) s =
  (match short (trace s) u with
   | Ok a => Ok (Row (cell n 40) (cell d 60) a)
   | Raise e => Raise e
   end, State (store s) (trace s ++ [EvShort u])).
Proof.
  intros Hn Hd Hu. unfold new_dictionary.
  rewrite (bind_ok _ _ _ _ _ (getitem_dict _ _ _ _ Hn)).
  rewrite (bind_ok _ _ _ _ _ (wrap_cell_str _ 40 _ ltac:(done))).
  rewrite (bind_ok _ _ _ _ _ (getitem_dict _ _ _ _ Hd)).
  rewrite (bind_ok _ _ _ _ _ (wrap_cell_str _ 60 _ ltac:(done))).
  rewrite (bind_ok _ _ _ _ _ (getitem_dict _ _ _ _ Hu)).
  unfold bind. rewrite shortener_short_run. by destruct (short (trace s) u).
Qed.

Lemma new_dictionary_outcome s l :
  fst (new_dictionary (VDict l) s) =
  match deref (store s) l !! "name" with
  | None => Raise (KeyError (VStr "name"))
  | Some (VStr n) =>
      match deref (store s) l !! "description" with
      | None => Raise (KeyError (VStr "description"))
      | Some (VStr d) =>
          match deref (store s) l !! "url" with
          | None => Raise (KeyError (VStr "url"))
          | Some u =>
              match short (trace s) u with
              | Ok a => Ok (Row (cell n 40) (cell d 60) a)
              | Raise e => Raise e
              end
          end
      | Some _ => Raise AttributeError
      end
  | Some _ => Raise AttributeError
  end.
Proof.
  cbv [new_dictionary bind getitem wrap_cell lift ret shortener_short Textwrap.wrap Nat.eqb].
  destruct (deref (store s) l !! "name") as [[| | | |n| |]|]; try reflexivity.
  destruct (deref (store s) l !! "description") as [[| | | |d| |]|]; try reflexivity.
  destruct (deref (store s) l !! "url") as [u|]; try reflexivity.
  simpl. by destruct (short (trace s) u).
Qed.

(** The outcome of row construction is a function of the trace and of
    the keys [name], [description] and [url] of the dictionary. *)
Lemma new_dictionary_reads s1 s2 l :
  trace s1 = trace s2 ->
  (forall k, (k = "name" \/ k = "description" \/ k = "url")%string ->
             deref (store s1) l !! k = deref (store s2) l !! k) ->
  fst (new_dictionary (VDict l) s1) = fst (new_dictionary (VDict l) s2).
Proof.
  intros Ht Hk. rewrite !new_dictionary_outcome. rewrite !Hk by tauto. by rewrite Ht.
Qed.

Lemma new_dictionary_title s l v r s' :
  deref (store s) l !! "name" = Some v ->
  new_dictionary (VDict l) s = (Ok r, s') ->
  exists t, v = VStr t /\ Title r = cell t 40.
Proof.
  intros Hn E. unfold new_dictionary in E.
  rewrite (bind_ok _ _ _ _ _ (getitem_dict _ _ _ _ Hn)) in E.
  destruct v as [| | | |t| |]; try discriminate E.
  exists t. split; [done|].
  rewrite (bind_ok _ _ _ _ _ (wrap_cell_str _ 40 _ ltac:(done))) in E.
  repeat (apply bind_inv in E as [(? & ? & _ & E)|(? & _ & ?)]; [|discriminate]).
  by inversion E.
Qed.

Lemma clean_item_article s item n d u :
  article (store s) item n d u ->
  exists h',
    clean_item item s =
    (match short (trace s) u with
     | Ok a => Ok (Row (cell n 40) (cell d 60) a)
     | Raise e => Raise e
     end, State h' (trace s ++ [EvShort u])) /\
    evolves (store s) h'.
Proof.
  intros A.
  assert (exists r h', clean_item item s = (r, State h' (trace s ++ [EvShort u])) /\
          r = match short (trace s) u with
              | Ok a => Ok (Row (cell n 40) (cell d 60) a)
              | Raise e => Raise e
              end) as (r & h' & E & ->).
  { destruct A as [l name description url Hn Hd Hu Hw
                  |l name w li lp others pn pt Hn Hw Hi Hp Hpn Hpt].
    - rewrite clean_item_standard.
      + rewrite (new_dictionary_run _ _ _ _ _ Hn Hd Hu). eauto.
      + intros [_ [x Hx]]. congruence.
    - rewrite clean_item_trending by (split; eauto).
      erewrite bind_ok by (eapply clean_trending_run; eassumption).
      erewrite new_dictionary_run; [eauto | | |]; simpl; rewrite deref_insert_eq.
      + by rewrite !lookup_insert_ne.
      + by rewrite lookup_insert_eq.
      + rewrite lookup_insert_ne by done. by rewrite lookup_insert_eq. }
  exists h'. split; [exact E|]. by apply clean_item_evolves in E.
Qed.

Lemma for_each_articles h0 items :
  (forall tr url, exists a, short tr url = Ok a) ->
  Forall (fun item => exists n d u, article h0 item n d u) items ->
  forall cleaned_list s,
    evolves h0 (store s) ->
    exists rows shorts h',
      for_each items cleaned_list s = (Ok (cleaned_list ++ rows), State h' (trace s ++ shorts)) /\
      Forall (fun e => is_short e = true) shorts /\
      Forall2 (row_of h0) items rows /\
      evolves h0 h'.
Proof.
  intros Hshort. induction 1 as [|item rest (n & d & u & A) _ IH]; intros cleaned_list s Hs.
  - exists [], [], (store s). simpl. rewrite !app_nil_r. destruct s.
    split; [reflexivity|]. split; [constructor|]. split; [constructor | exact Hs].
  - simpl.
    destruct (clean_item_article s item n d u) as (h1 & E1 & H1);
      [by eapply article_evolves|].
    destruct (Hshort (trace s) u) as (a & Ha). rewrite Ha in E1.
    rewrite (bind_ok _ _ _ _ _ E1).
    destruct (IH (cleaned_list ++ [Row (cell n 40) (cell d 60) a])
                (State h1 (trace s ++ [EvShort u]))) as (rows & shorts & h' & E & F & R & H');
      [by eapply evolves_trans|].
    exists (Row (cell n 40) (cell d 60) a :: rows), (EvShort u :: shorts), h'.
    rewrite E. simpl. rewrite <- !app_assoc. simpl.
    split; [reflexivity|]. split; [by constructor|]. split; [|exact H'].
    constructor; [|done]. exists n, d, u. simpl. eauto 10.
Qed.

(** ** Rendering *)

Lemma print_bing_results_value s lr articles :
  deref (store s) lr !! "value" = Some articles ->
  print_bing_results (VDict lr) s =
  (let* cleaned_articles := clean_bing_article_list articles in
   let* _ := emit (EvTable cleaned_articles) in
   let* has_total := contains "totalEstimatedMatches" (VDict lr) in
   if has_total then
     let* total := getitem (VDict lr) "totalEstimatedMatches" in
     let* total := format total in
     emit (EvSecho (total +:+ " estimated matches.") None)
   else ret tt) s.
Proof.
  intros Hv. unfold print_bing_results.
  rewrite (bind_ok _ _ _ _ _ (contains_dict_true _ _ _ ltac:(eauto))).
  cbn [negb]. by rewrite (bind_ok _ _ _ _ _ (getitem_dict _ _ _ _ Hv)).
Qed.

Lemma print_bing_results_cleaned s lr items rows s1 :
  deref (store s) lr !! "value" = Some (VList items) ->
  for_each items [] s = (Ok rows, s1) ->
  exists tail s2,
    print_bing_results (VDict lr) s = (Ok tt, s2) /\
    trace s2 = trace s1 ++ EvTable rows :: tail /\
    Forall (fun e => is_table e = false) tail.
Proof.
  intros Hv E. rewrite (print_bing_results_value _ _ _ Hv).
  unfold clean_bing_article_list.
  erewrite bind_ok; cycle 1.
  { unfold bind, iterate. exact E. }
  unfold bind at 1, emit.
  match goal with |- context [bind (contains _ _) _ ?st] => set (s2 := st) end.
  destruct (deref (store s2) lr !! "totalEstimatedMatches") as [total|] eqn:B.
  - rewrite (bind_ok _ _ _ _ _ (contains_dict_true _ _ _ (mk_is_Some _ _ B))).
    rewrite (bind_ok _ _ _ _ _ (getitem_dict _ _ _ _ B)).
    unfold bind, format, emit. subst s2. simpl.
    eexists [_], _. split; [reflexivity|]. simpl. rewrite <- !app_assoc. simpl.
    split; [reflexivity | by repeat constructor].
  - rewrite (bind_ok _ _ _ _ _ (contains_dict_false _ _ _ B)).
    eexists [], _. split; [reflexivity|]. subst s2. simpl.
    split; [reflexivity | constructor].
Qed.

Lemma print_bing_results_aborted s lr items e s1 :
  deref (store s) lr !! "value" = Some (VList items) ->
  for_each items [] s = (Raise e, s1) ->
  print_bing_results (VDict lr) s = (Raise e, s1).
Proof.
  intros Hv E. rewrite (print_bing_results_value _ _ _ Hv).
  erewrite bind_raise; [reflexivity|].
  unfold clean_bing_article_list, bind at 1, iterate. exact E.
Qed.

(** The rows the loop returns are the rows its body built, item by item. *)
Lemma for_each_rows items : forall cleaned_list s rows s',
  for_each items cleaned_list s = (Ok rows, s') ->
  exists new, rows = cleaned_list ++ new /\ Forall2 built_from items new.
Proof.
  induction items as [|item rest IH]; intros cleaned_list s rows s' E; simpl in E.
  - inversion E; subst. exists []. by rewrite app_nil_r.
  - apply bind_inv in E as [(r & s1 & E1 & E)|(e & _ & [=])].
    apply IH in E as (new & -> & F). exists (r :: new). rewrite <- app_assoc.
    split; [done|]. constructor; [|done]. by exists s, s1.
Qed.

(** C1: for a response dictionary whose [value] is a list, rendering
    either ends with an exception, having done nothing but call the
    shortener, or returns having printed exactly one table, whose rows
    are, one to one and in order, the rows built for the items of the
    list.  When the items are article records and the link shortener
    answers, it is the second, and each row is the row of its article. *)
Theorem one_row_per_article s lr items :
  deref (store s) lr !! "value" = Some (VList items) ->
  (forall r s', print_bing_results (VDict lr) s = (r, s') ->
     exists shorts,
       Forall (fun e => is_short e = true) shorts /\
       ((exists e, r = Raise e /\ trace s' = trace s ++ shorts) \/
        (exists rows tail,
            r = Ok tt /\
            trace s' = trace s ++ shorts ++ EvTable rows :: tail /\
            Forall (fun e => is_table e = false) tail /\
            Forall2 built_from items rows))) /\
  (Forall (fun item => exists n d u, article (store s) item n d u) items ->
   (forall tr url, exists a, short tr url = Ok a) ->
   exists rows shorts tail s',
     print_bing_results (VDict lr) s = (Ok tt, s') /\
     trace s' = trace s ++ shorts ++ EvTable rows :: tail /\
     Forall (fun e => is_short e = true) shorts /\
     Forall (fun e => is_table e = false) tail /\
     Forall2 (row_of (store s)) items rows).
Proof.
  intros Hv. split.
  - intros r s' E.
    destruct (for_each items [] s) as [[rows|e] s1] eqn:E1;
      destruct (appends_for_each (fun e => is_short e = true) items [] ltac:(done) _ _ _ E1)
        as (shorts & T1 & F1); exists shorts; (split; [exact F1|]).
    + right.
      destruct (print_bing_results_cleaned _ _ _ _ _ Hv E1) as (tail & s2 & E2 & T2 & F2).
      rewrite E2 in E. injection E as <- <-.
      destruct (for_each_rows _ _ _ _ _ E1) as (new & -> & F).
      exists new, tail. rewrite T2, T1, <- app_assoc. done.
    + left. rewrite (print_bing_results_aborted _ _ _ _ _ Hv E1) in E.
      injection E as <- <-. eauto.
  - intros Hitems Hshort.
    destruct (for_each_articles (store s) items Hshort Hitems [] s (evolves_refl _))
      as (rows & shorts & h' & E & F & R & H').
    destruct (print_bing_results_cleaned _ _ _ _ _ Hv E) as (tail & s2 & E2 & T2 & F2).
    exists rows, shorts, tail, s2. simpl in T2. rewrite <- app_assoc in T2. done.
Qed.

(** C3: the test of line 34 on a dictionary holds exactly when the keys
    [name] and [webSearchUrl] are both present, and it changes nothing;
    a dictionary that passes it is normalized as trending before its row
    is built, any other is handed to row construction as it is and the
    store is left as it was; writing any other key of the dictionary does
    not change the outcome of the test. *)
Theorem classification_by_two_keys s l :
  is_trending (VDict l) s = (Ok (bool_decide (trending_shape (deref (store s) l))), s) /\
  (trending_shape (deref (store s) l) ->
   clean_item (VDict l) s =
   (let* item := clean_trending_article_dictionary (VDict l) in new_dictionary item) s) /\
  (~ trending_shape (deref (store s) l) ->
   clean_item (VDict l) s = new_dictionary (VDict l) s /\
   store (snd (clean_item (VDict l) s)) = store s) /\
  (forall k x, k <> "name"%string -> k <> "webSearchUrl"%string ->
     trending_shape (<[k := x]> (deref (store s) l)) <-> trending_shape (deref (store s) l)).
Proof.
  split; [apply is_trending_dict|]. split; [apply clean_item_trending|]. split.
  - intros H. rewrite clean_item_standard by done. split; [done|].
    destruct (new_dictionary (VDict l) s) as [r s'] eqn:E.
    by apply (preserves_new_dictionary (fun h => h = store s)) in E.
  - intros k x H1 H2. unfold trending_shape. by rewrite !lookup_insert_ne.
Qed.

Lemma for_each_app pre post cleaned_list s :
  for_each (pre ++ post) cleaned_list s =
  (let* rows := for_each pre cleaned_list in for_each post rows) s.
Proof.
  revert cleaned_list s. induction pre as [|item pre IH]; intros cleaned_list s; simpl.
  - reflexivity.
  - rewrite bind_assoc. destruct (clean_item item s) as [[new|e] s1] eqn:E.
    + rewrite !(bind_ok _ _ _ _ _ E). apply IH.
    + by rewrite !(bind_raise _ _ _ _ _ E).
Qed.

Lemma printed_app_silent tr evs :
  Forall (fun e => is_short e = true) evs -> printed (tr ++ evs) = printed tr.
Proof.
  intros H. unfold printed. rewrite List.filter_app.
  replace (List.filter is_print evs) with (@nil event); [by rewrite app_nil_r|].
  induction H as [|e evs He _ IH]; [done|]. simpl. destruct e; try discriminate. exact IH.
Qed.

Lemma clean_trending_empty_provider s l li :
  deref (store s) l !! "image" = Some (VDict li) ->
  deref (store s) li !! "provider" = Some (VList []) ->
  clean_trending_article_dictionary (VDict l) s = (Raise IndexError, s).
Proof.
  intros Hi Hp. unfold clean_trending_article_dictionary.
  rewrite (bind_ok _ _ _ _ _ (getitem_dict _ _ _ _ Hi)).
  rewrite (bind_ok _ _ _ _ _ (getitem_dict _ _ _ _ Hp)).
  reflexivity.
Qed.

(** C5: a dictionary of trending shape whose [image.provider] is the
    empty list makes normalization raise [IndexError] without changing
    anything; a response whose list of articles contains such a record
    makes rendering end with an exception without having printed
    anything, table or line, and when the articles before it are cleaned
    without failure that exception is the [IndexError], raised in the
    state those articles left. *)
Theorem empty_provider_aborts_render s lr pre l li post :
  deref (store s) lr !! "value" = Some (VList (pre ++ VDict l :: post)) ->
  trending_shape (deref (store s) l) ->
  deref (store s) l !! "image" = Some (VDict li) ->
  deref (store s) li !! "provider" = Some (VList []) ->
  clean_trending_article_dictionary (VDict l) s = (Raise IndexError, s) /\
  (exists e s', print_bing_results (VDict lr) s = (Raise e, s') /\
                printed (trace s') = printed (trace s)) /\
  (forall rows s1, for_each pre [] s = (Ok rows, s1) ->
                   print_bing_results (VDict lr) s = (Raise IndexError, s1)).
Proof.
  intros Hv Hs Hi Hp. split; [by eapply clean_trending_empty_provider|].
  assert (forall rows s1, for_each pre [] s = (Ok rows, s1) ->
                          print_bing_results (VDict lr) s = (Raise IndexError, s1)) as Hok.
  { intros rows s1 E. rewrite (print_bing_results_value _ _ _ Hv).
    erewrite bind_raise; [reflexivity|].
    unfold clean_bing_article_list, bind at 1, iterate.
    rewrite for_each_app. rewrite (bind_ok _ _ _ _ _ E). simpl.
    erewrite bind_raise; [reflexivity|].
    pose proof (for_each_evolves _ _ _ _ _ E) as Hev.
    assert (forall l' k, ~ normalized_key k ->
                         deref (store s1) l' !! k = deref (store s) l' !! k) as K
      by (intros l' k; apply (Hev l')).
    rewrite clean_item_trending by (by apply (evolves_shape _ _ l Hev)).
    erewrite bind_raise; [reflexivity|].
    eapply clean_trending_empty_provider; rewrite K; try eassumption;
      intros [?|[?|?]]; discriminate. }
  split; [|exact Hok].
  destruct (for_each pre [] s) as [[rows|e] s1] eqn:E.
  - exists IndexError, s1. split; [by eapply Hok|].
    destruct (appends_for_each (fun e => is_short e = true) pre [] ltac:(done) _ _ _ E)
      as (evs & -> & F).
    by apply printed_app_silent.
  - exists e, s1. split.
    + rewrite (print_bing_results_value _ _ _ Hv).
      erewrite bind_raise; [reflexivity|].
      unfold clean_bing_article_list, bind at 1, iterate.
      rewrite for_each_app. by erewrite bind_raise.
    + destruct (appends_for_each (fun e => is_short e = true) pre [] ltac:(done) _ _ _ E)
        as (evs & -> & F).
      by apply printed_app_silent.
Qed.

(** ** The caller's dictionary *)

Lemma new_dictionary_ignores_title s l x :
  fst (new_dictionary (VDict l)
         (State (<[l := <["title" := x]> (deref (store s) l)]> (store s)) (trace s))) =
  fst (new_dictionary (VDict l) s).
Proof.
  apply new_dictionary_reads; [done|].
  intros k Hk. simpl. apply deref_setitem_other_key.
  destruct Hk as [->|[->| ->]]; discriminate.
Qed.

(** C10: normalization works on the dictionary object it is given and
    returns that same object: after it, the caller's dictionary holds
    [title] (the value of [name]), [url] (the value of [webSearchUrl],
    whatever [url] held before) and [description] (a new text, whatever
    [description] held before), keeps its other keys, and every other
    dictionary of the store is as before; a record that had no
    [title] is therefore not the record the caller passed in.  Row
    construction never reads [title]: its outcome is the same whatever
    that key holds, and the Title cell of any row it builds is the
    wrapped [name]. *)
Theorem normalization_mutates_in_place s l li lp others n w pn pt :
  deref (store s) l !! "name" = Some n ->
  deref (store s) l !! "webSearchUrl" = Some w ->
  deref (store s) l !! "image" = Some (VDict li) ->
  deref (store s) li !! "provider" = Some (VList (VDict lp :: others)) ->
  deref (store s) lp !! "name" = Some pn ->
  deref (store s) lp !! "_type" = Some pt ->
  exists s' text,
    clean_trending_article_dictionary (VDict l) s = (Ok (VDict l), s') /\
    trace s' = trace s /\
    deref (store s') l =
      <["description" := VStr text]> (<["url" := w]> (<["title" := n]> (deref (store s) l))) /\
    deref (store s') l !! "title" = Some n /\
    deref (store s') l !! "url" = Some w /\
    deref (store s') l !! "description" = Some (VStr text) /\
    (forall k, ~ normalized_key k -> deref (store s') l !! k = deref (store s) l !! k) /\
    (forall l', l' <> l -> store s' !! l' = store s !! l') /\
    (deref (store s) l !! "title" = None -> deref (store s') l <> deref (store s) l) /\
    (forall s0 l0 x,
        fst (new_dictionary (VDict l0)
               (State (<[l0 := <["title" := x]> (deref (store s0) l0)]> (store s0)) (trace s0))) =
        fst (new_dictionary (VDict l0) s0)) /\
    (forall s0 l0 v r s1,
        deref (store s0) l0 !! "name" = Some v ->
        new_dictionary (VDict l0) s0 = (Ok r, s1) ->
        exists t, v = VStr t /\ Title r = cell t 40).
Proof.
  intros Hn Hw Hi Hp Hpn Hpt.
  eexists _, _. split; [eapply clean_trending_run; eassumption|].
  simpl. rewrite deref_insert_eq.
  split; [done|]. split; [done|].
  split; [rewrite !lookup_insert_ne by done; by rewrite lookup_insert_eq|].
  split; [rewrite lookup_insert_ne by done; by rewrite lookup_insert_eq|].
  split; [by rewrite lookup_insert_eq|].
  split.
  { intros k Hk. rewrite !lookup_insert_ne; [done| | |]; intros <-; apply Hk;
      unfold normalized_key; tauto. }
  split; [intros l' Hl; by rewrite lookup_insert_ne|].
  split.
  { intros Ht E.
    assert (deref (store s) l !! "title" = Some n) as Ht'
      by (rewrite <- E; rewrite !lookup_insert_ne by done; by rewrite lookup_insert_eq).
    congruence. }
  split; [apply new_dictionary_ignores_title | apply new_dictionary_title].
Qed.

(** ** The other subcommands and the request *)

(** X1: with the environment configured, the phrase subcommand
    announces the search and then issues one request, to the address
    made of the endpoint, [v7.0/news] and [/search], with the
    subscription key as its only header and two query parameters: [q],
    the phrase as typed, and [textDecorations], false; nothing after it
    is a request. *)
Theorem phrase_query_parameters search_phrase key endpoint s :
  environ !! "BING_SEARCH_KEY" = Some key ->
  environ !! "BING_SEARCH_ENDPOINT" = Some endpoint ->
  exists r s' rest,
    search_bing_by_phrase search_phrase s = (r, s') /\
    trace s' =
      trace s ++
      EvSecho ("Searching for " +:+ search_phrase +:+ "...") None
      :: EvGet (endpoint +:+ "v7.0/news" +:+ "/search")
           [("Ocp-Apim-Subscription-Key"%string, key)]
           [("q"%string, VStr search_phrase); ("textDecorations"%string, VBool false)]
      :: rest /\
    Forall (fun e => is_request e = false) rest.
Proof.
  intros Hk He. unfold search_bing_by_phrase. unfold bind at 1, emit.
  edestruct (search_and_output_bing_request) as (r & s' & rest & E & T & F); [exact Hk|exact He|].
  exists r, s', rest. split; [exact E|]. split; [|exact F].
  rewrite T. simpl. by rewrite <- app_assoc.
Qed.

(** X2: with the environment configured, the trending subcommand
    announces the search and then issues one request, to the address
    made of the endpoint, [v7.0/news] and [/trendingtopics?mkt=market],
    with the subscription key as its only header and no query
    parameters; nothing after it is a request. *)
Theorem trending_query_path market key endpoint s :
  environ !! "BING_SEARCH_KEY" = Some key ->
  environ !! "BING_SEARCH_ENDPOINT" = Some endpoint ->
  exists r s' rest,
    search_bing_by_trending market s = (r, s') /\
    trace s' =
      trace s ++
      EvSecho ("Searching for trending topics in " +:+ market +:+ "...") None
      :: EvGet (endpoint +:+ "v7.0/news" +:+ ("/trendingtopics?mkt=" +:+ market))
           [("Ocp-Apim-Subscription-Key"%string, key)] []
      :: rest /\
    Forall (fun e => is_request e = false) rest.
Proof.
  intros Hk He. unfold search_bing_by_trending. unfold bind at 1, emit.
  edestruct (search_and_output_bing_request) as (r & s' & rest & E & T & F); [exact Hk|exact He|].
  exists r, s', rest. split; [exact E|]. split; [|exact F].
  rewrite T. simpl. by rewrite <- app_assoc.
Qed.

Lemma filter_is_request_nil evs :
  Forall (fun e => is_request e = false) evs -> List.filter is_request evs = [].
Proof.
  induction 1 as [|e evs He _ IH]; [done|]. simpl. by rewrite He.
Qed.

(** X3: whatever the environment, the server and the shortener do,
    a run of a subcommand issues at most one request to the search
    service: there is no retry and no second page. *)
Theorem at_most_one_request c s :
  exists evs,
    trace (snd (cli c s)) = trace s ++ evs /\
    (length (List.filter is_request evs) <= 1)%nat.
Proof.
  assert (forall searching query_string params, exists evs,
    trace (snd ((let* _ := emit (EvSecho searching None) in
                 search_and_output_bing query_string params) s)) = trace s ++ evs /\
    (length (List.filter is_request evs) <= 1)%nat) as E.
  { intros. unfold bind at 1, emit.
    destruct (environ !! "BING_SEARCH_KEY") as [key|] eqn:Hk;
      [destruct (environ !! "BING_SEARCH_ENDPOINT") as [endpoint|] eqn:He|].
    - edestruct (search_and_output_bing_request) as (r & s' & rest & E & T & F);
        [exact Hk|exact He|].
      rewrite E. simpl. rewrite T. simpl. rewrite <- app_assoc.
      eexists. split; [reflexivity|]. simpl. by rewrite filter_is_request_nil.
    - rewrite search_and_output_bing_unconfigured by (by right).
      eexists. split; [reflexivity|]. simpl. lia.
    - rewrite search_and_output_bing_unconfigured by (by left).
      eexists. split; [reflexivity|]. simpl. lia. }
  destruct c; simpl; unfold search_bing_by_phrase, search_bing_by_category,
    search_bing_by_trending; apply E.
Qed.

(** X4: [requests.get] is called before the [try] statement, so an
    exception it raises, an [HTTPError] included, is not reported as an
    error message: it leaves the subcommand, the process exits with
    status 1, and after the announcement and the request nothing is
    printed. *)
Theorem request_failure_escapes c key endpoint e s :
  environ !! "BING_SEARCH_KEY" = Some key ->
  environ !! "BING_SEARCH_ENDPOINT" = Some endpoint ->
  (forall tr url headers params, requests_get tr url headers params = Raise e) ->
  exists searching request,
    cli c s = (Raise e, State (store s) (trace s ++ [EvSecho searching None; request])) /\
    is_request request = true /\
    exit_status (fst (cli c s)) = 1.
Proof.
  intros Hk He Hget.
  assert (forall searching query_string params, exists request,
    (let* _ := emit (EvSecho searching None) in search_and_output_bing query_string params) s
    = (Raise e, State (store s) (trace s ++ [EvSecho searching None; request])) /\
    is_request request = true) as E.
  { intros. unfold bind at 1, emit. unfold search_and_output_bing, getenv. rewrite Hk, He.
    unfold bind at 1. unfold requests_get_call. rewrite Hget. simpl.
    rewrite <- app_assoc. simpl. eexists. split; reflexivity. }
  destruct c; simpl; unfold search_bing_by_phrase, search_bing_by_category,
    search_bing_by_trending;
    match goal with |- context [emit (EvSecho ?m None)] =>
      match goal with |- context [search_and_output_bing ?q ?ps] =>
        destruct (E m q ps) as (request & E1 & E2) end end;
    eexists _, request; rewrite E1; auto.
Qed.

(** ** The render, edge by edge *)

Lemma clean_bing_article_list_evolves v s r s' :
  clean_bing_article_list v s = (r, s') -> evolves (store s) (store s').
Proof.
  intros E. unfold clean_bing_article_list in E.
  apply bind_inv in E as [(items & s1 & E1 & E)|(e & E1 & ->)].
  - assert (s1 = s) as -> by (unfold iterate in E1; destruct v; by inversion E1).
    eapply for_each_evolves; eauto.
  - assert (s' = s) as -> by (unfold iterate in E1; destruct v; by inversion E1).
    apply evolves_refl.
Qed.

(** X5: when the articles under [value] are cleaned without an
    exception, the render returns normally having printed the table of
    the cleaned rows and then, if and only if the response has the key
    [totalEstimatedMatches], one line: the value of that key as [str]
    gives it, followed by [ estimated matches.]; the table is the last
    thing printed otherwise. *)
Theorem total_line_follows_table s lr articles rows s1 :
  deref (store s) lr !! "value" = Some articles ->
  clean_bing_article_list articles s = (Ok rows, s1) ->
  print_bing_results (VDict lr) s =
  (Ok tt,
   State (store s1)
     (trace s1 ++ EvTable rows ::
        match deref (store s) lr !! "totalEstimatedMatches" with
        | Some total => [EvSecho (py_str (store s1) total +:+ " estimated matches.") None]
        | None => []
        end)).
Proof.
  intros Hv Hc. rewrite (print_bing_results_value _ _ _ Hv).
  rewrite (bind_ok _ _ _ _ _ Hc). unfold bind at 1, emit.
  assert (deref (store s1) lr !! "totalEstimatedMatches" =
          deref (store s) lr !! "totalEstimatedMatches") as Ht.
  { apply (clean_bing_article_list_evolves _ _ _ _ Hc lr).
    intros [?|[?|?]]; discriminate. }
  destruct (deref (store s) lr !! "totalEstimatedMatches") as [total|] eqn:Hl.
  - erewrite bind_ok by (apply contains_dict_true; simpl; rewrite Ht; eauto).
    cbv iota. erewrite bind_ok by (apply getitem_dict; simpl; exact Ht).
    unfold bind, format, emit. simpl. by rewrite <- app_assoc.
  - erewrite bind_ok by (apply contains_dict_false; simpl; exact Ht).
    unfold ret. simpl. reflexivity.
Qed.

(** X6: a record that is not of trending shape and lacks one of the
    keys [name], [description], [url] makes the loop body raise
    [KeyError] for the first of them that is missing, and a [name] or
    [description] that is not a string makes it raise [AttributeError];
    in each case the state is as before: the shortener has not been
    called. *)
Theorem incomplete_record_raises s l :
  ~ trending_shape (deref (store s) l) ->
  (deref (store s) l !! "name" = None ->
   clean_item (VDict l) s = (Raise (KeyError (VStr "name")), s)) /\
  (forall n,
      deref (store s) l !! "name" = Some (VStr n) ->
      deref (store s) l !! "description" = None ->
      clean_item (VDict l) s = (Raise (KeyError (VStr "description")), s)) /\
  (forall n d,
      deref (store s) l !! "name" = Some (VStr n) ->
      deref (store s) l !! "description" = Some (VStr d) ->
      deref (store s) l !! "url" = None ->
      clean_item (VDict l) s = (Raise (KeyError (VStr "url")), s)) /\
  (forall v,
      deref (store s) l !! "name" = Some v ->
      (forall t, v <> VStr t) ->
      clean_item (VDict l) s = (Raise AttributeError, s)) /\
  (forall n v,
      deref (store s) l !! "name" = Some (VStr n) ->
      deref (store s) l !! "description" = Some v ->
      (forall t, v <> VStr t) ->
      clean_item (VDict l) s = (Raise AttributeError, s)).
Proof.
  intros Hs. rewrite (clean_item_standard _ _ Hs). unfold new_dictionary.
  split; [|split; [|split; [|split]]].
  - intros Hn. by rewrite (bind_raise _ _ _ _ _ (getitem_missing _ _ _ Hn)).
  - intros n Hn Hd. rewrite (bind_ok _ _ _ _ _ (getitem_dict _ _ _ _ Hn)).
    rewrite (bind_ok _ _ _ _ _ (wrap_cell_str n 40 s ltac:(done))).
    by rewrite (bind_raise _ _ _ _ _ (getitem_missing _ _ _ Hd)).
  - intros n d Hn Hd Hu. rewrite (bind_ok _ _ _ _ _ (getitem_dict _ _ _ _ Hn)).
    rewrite (bind_ok _ _ _ _ _ (wrap_cell_str n 40 s ltac:(done))).
    rewrite (bind_ok _ _ _ _ _ (getitem_dict _ _ _ _ Hd)).
    rewrite (bind_ok _ _ _ _ _ (wrap_cell_str d 60 s ltac:(done))).
    by rewrite (bind_raise _ _ _ _ _ (getitem_missing _ _ _ Hu)).
  - intros v Hn Hv. rewrite (bind_ok _ _ _ _ _ (getitem_dict _ _ _ _ Hn)).
    destruct v; try reflexivity. by destruct (Hv s0).
  - intros n v Hn Hd Hv. rewrite (bind_ok _ _ _ _ _ (getitem_dict _ _ _ _ Hn)).
    rewrite (bind_ok _ _ _ _ _ (wrap_cell_str n 40 s ltac:(done))).
    rewrite (bind_ok _ _ _ _ _ (getitem_dict _ _ _ _ Hd)).
    destruct v; try reflexivity. by destruct (Hv s0).
Qed.

(** X7: normalization is not atomic.  When the first provider of a
    trending record lacks [name], or has [name] but lacks [_type],
    [KeyError] is raised for that key after [title] and [url] have been
    written: the caller's dictionary keeps both new entries although the
    normalization failed.  When the record lacks [image], the
    [KeyError] comes before any write. *)
Theorem failed_normalization_leaves_writes s l li lp others n w :
  (deref (store s) l !! "image" = None ->
   clean_trending_article_dictionary (VDict l) s = (Raise (KeyError (VStr "image")), s)) /\
  (deref (store s) l !! "name" = Some n ->
   deref (store s) l !! "webSearchUrl" = Some w ->
   deref (store s) l !! "image" = Some (VDict li) ->
   deref (store s) li !! "provider" = Some (VList (VDict lp :: others)) ->
   let written :=
     State (<[l := <["url" := w]> (<["title" := n]> (deref (store s) l))]> (store s))
       (trace s) in
   (deref (store s) lp !! "name" = None ->
    clean_trending_article_dictionary (VDict l) s = (Raise (KeyError (VStr "name")), written)) /\
   (forall provider_name,
       deref (store s) lp !! "name" = Some provider_name ->
       deref (store s) lp !! "_type" = None ->
       clean_trending_article_dictionary (VDict l) s =
       (Raise (KeyError (VStr "_type")), written)) /\
   deref (store written) l !! "title" = Some n /\
   deref (store written) l !! "url" = Some w).
Proof.
  split.
  { intros Hi. unfold clean_trending_article_dictionary.
    by rewrite (bind_raise _ _ _ _ _ (getitem_missing _ _ _ Hi)). }
  intros Hn Hw Hi Hp written.
  set (d1 := <["url" := w]> (<["title" := n]> (deref (store s) l))) in *.
  set (h1 := <[l := d1]> (store s)).
  assert (forall k, k <> "title"%string -> k <> "url"%string ->
                    deref h1 lp !! k = deref (store s) lp !! k) as Hlp.
  { intros k H1 H2. subst h1 d1. destruct (decide (l = lp)) as [->|Hl].
    - rewrite deref_insert_eq. by rewrite !lookup_insert_ne.
    - by rewrite deref_insert_ne. }
  assert (
    clean_trending_article_dictionary (VDict l) s =
    (let* source_name := getitem (VDict lp) "name" in
     let* source_name := format source_name in
     let* source_type := getitem (VDict lp) "_type" in
     let* source_type := format source_type in
     let* _ := setitem (VDict l) "description"
               (VStr ("Provided by " +:+ source_name +:+ ", an " +:+ source_type +:+ ".")) in
     ret (VDict l)) written) as E.
  { unfold clean_trending_article_dictionary.
    rewrite (bind_ok _ _ _ _ _ (getitem_dict _ _ _ _ Hi)).
    rewrite (bind_ok _ _ _ _ _ (getitem_dict _ _ _ _ Hp)).
    unfold bind at 1. simpl getitem_0. cbv beta iota.
    rewrite (bind_ok _ _ _ _ _ (getitem_dict _ _ _ _ Hn)).
    rewrite (bind_ok _ _ _ _ _ (setitem_dict _ _ _ _)).
    erewrite bind_ok; cycle 1.
    { apply getitem_dict. simpl. rewrite deref_setitem_other_key by done. exact Hw. }
    rewrite (bind_ok _ _ _ _ _ (setitem_dict _ _ _ _)). simpl store. simpl trace.
    rewrite deref_insert_eq, insert_insert_eq. reflexivity. }
  split; [|split; [|split]].
  - intros Hpn. rewrite E. apply bind_raise, getitem_missing. simpl.
    fold d1. fold h1. by rewrite Hlp.
  - intros pn Hpn Hpt. rewrite E.
    erewrite bind_ok; cycle 1.
    { apply getitem_dict. simpl. fold d1. fold h1. rewrite Hlp by done. exact Hpn. }
    unfold bind at 1, format.
    apply bind_raise, getitem_missing. simpl. fold d1. fold h1. by rewrite Hlp.
  - subst written d1. simpl. rewrite deref_insert_eq. rewrite lookup_insert_ne by done.
    by rewrite lookup_insert_eq.
  - subst written d1. simpl. rewrite deref_insert_eq. by rewrite lookup_insert_eq.
Qed.

Lemma clean_item_not_a_dictionary item s :
  (forall l, item <> VDict l) ->
  clean_item item s = (Raise TypeError, s).
Proof.
  intros H. destruct item as [| | | |t|items|l]; try reflexivity.
  - unfold clean_item, is_trending, bind, contains.
    destruct (is_substring "name" t); [destruct (is_substring "webSearchUrl" t)|];
      reflexivity.
  - unfold clean_item, is_trending, bind, contains.
    destruct (existsb (is_str "name") items);
      [destruct (existsb (is_str "webSearchUrl") items)|]; reflexivity.
  - by destruct (H l).
Qed.

(** X8: an item of the list that is not a dictionary (a string, a
    number, a list, [None]) makes the loop body raise [TypeError] with
    the state as before, whatever the item contains; the render of a
    list that has such an item after items that were cleaned ends with
    that [TypeError] and prints nothing. *)
Theorem non_dictionary_item_raises item s :
  (forall l, item <> VDict l) ->
  clean_item item s = (Raise TypeError, s) /\
  (forall lr pre post rows s1,
      deref (store s) lr !! "value" = Some (VList (pre ++ item :: post)) ->
      for_each pre [] s = (Ok rows, s1) ->
      print_bing_results (VDict lr) s = (Raise TypeError, s1) /\
      printed (trace s1) = printed (trace s)).
Proof.
  intros H. split; [by apply clean_item_not_a_dictionary|].
  intros lr pre post rows s1 Hv Hpre. split.
  - eapply print_bing_results_aborted; [exact Hv|].
    rewrite for_each_app. rewrite (bind_ok _ _ _ _ _ Hpre). simpl for_each.
    by apply bind_raise, clean_item_not_a_dictionary.
  - destruct (appends_for_each (fun e => is_short e = true) pre [] ltac:(done) _ _ _ Hpre)
      as (evs & -> & F).
    by apply printed_app_silent.
Qed.

(** X9: a response whose [value] is not a list makes the render raise
    [TypeError] with the state as before, nothing being printed: a
    value that cannot be iterated ([None], a number), a non-empty
    string (its characters are the items), a dictionary with at least
    one key (its keys are the items). *)
Theorem value_not_a_list_raises s lr v :
  deref (store s) lr !! "value" = Some v ->
  (forall items, v <> VList items) ->
  v <> VStr "" ->
  (forall l, v = VDict l -> deref (store s) l <> ∅) ->
  print_bing_results (VDict lr) s = (Raise TypeError, s).
Proof.
  intros Hv Hlist Hstr Hdict. rewrite (print_bing_results_value _ _ _ Hv).
  apply bind_raise. unfold clean_bing_article_list.
  destruct v as [| | | |t|items|l]; try reflexivity.
  - destruct t as [|c t]; [done|]. unfold bind at 1. simpl iterate. cbv beta iota.
    simpl for_each. apply bind_raise, clean_item_not_a_dictionary. intros ? [=].
  - by destruct (Hlist items).
  - unfold bind at 1. simpl iterate. cbv beta iota.
    destruct (map_to_list (deref (store s) l)) as [|[k x] rest] eqn:E.
    + apply map_to_list_empty_iff in E. by destruct (Hdict l).
    + simpl for_each. apply bind_raise, clean_item_not_a_dictionary. intros ? [=].
Qed.

(** X10: a response that is not a dictionary never reaches the table.
    A list or a string that does not contain [value] fails the
    assertion; any other response raises [TypeError]; the state is as
    before. *)
Theorem non_dictionary_response_raises v s :
  (forall l, v <> VDict l) ->
  print_bing_results v s =
  (Raise match v with
         | VList items => if existsb (is_str "value") items then TypeError else AssertionError
         | VStr t => if is_substring "value" t then TypeError else AssertionError
         | _ => TypeError
         end, s).
Proof.
  intros H. destruct v as [| | | |t|items|l]; try reflexivity.
  - unfold print_bing_results, bind, contains. by destruct (is_substring "value" t).
  - unfold print_bing_results, bind, contains. by destruct (existsb (is_str "value") items).
  - by destruct (H l).
Qed.

(** X11: when the shortener raises an exception for the address of an
    article, that exception leaves the render: the rows built for the
    articles before it are discarded, nothing is printed, and the call
    that failed is the last event. *)
Theorem shortener_failure_aborts_render s lr pre item post n d u rows s1 e :
  deref (store s) lr !! "value" = Some (VList (pre ++ item :: post)) ->
  for_each pre [] s = (Ok rows, s1) ->
  article (store s) item n d u ->
  short (trace s1) u = Raise e ->
  exists h',
    print_bing_results (VDict lr) s = (Raise e, State h' (trace s1 ++ [EvShort u])) /\
    printed (trace s1 ++ [EvShort u]) = printed (trace s).
Proof.
  intros Hv Hpre Ha Hs.
  assert (article (store s1) item n d u) as Ha1
    by (eapply article_evolves; [eapply for_each_evolves; exact Hpre | exact Ha]).
  destruct (clean_item_article _ _ _ _ _ Ha1) as (h' & E & _). rewrite Hs in E.
  exists h'. split.
  - eapply print_bing_results_aborted; [exact Hv|].
    rewrite for_each_app. rewrite (bind_ok _ _ _ _ _ Hpre). simpl for_each.
    by rewrite (bind_raise _ _ _ _ _ E).
  - destruct (appends_for_each (fun e => is_short e = true) pre [] ltac:(done) _ _ _ Hpre)
      as (evs & -> & F).
    rewrite <- app_assoc. apply printed_app_silent.
    apply Forall_app. split; [exact F|]. by repeat constructor.
Qed.

(** ** The scope of the [try] statement *)

Lemma search_and_output_bing_body query_string params key endpoint r lr objects s :
  environ !! "BING_SEARCH_KEY" = Some key ->
  environ !! "BING_SEARCH_ENDPOINT" = Some endpoint ->
  requests_get (trace s) (endpoint +:+ "v7.0/news" +:+ query_string)
    [("Ocp-Apim-Subscription-Key"%string, key)] params = Ok r ->
  status_code r < 400 \/ 600 <= status_code r ->
  response_json r = Ok (VDict lr, objects) ->
  search_and_output_bing query_string params s =
  try_except_HTTPError
    (print_bing_results (VDict lr))
    (fun error => emit (EvSecho ("Error: " +:+ error) (Some "red"%string)))
    (State (objects ∪ store s)
       (trace s ++ [EvGet (endpoint +:+ "v7.0/news" +:+ query_string)
                      [("Ocp-Apim-Subscription-Key"%string, key)] params])).
Proof.
  intros Hk He Hr Hs Hj. unfold search_and_output_bing, getenv. rewrite Hk, He.
  unfold bind at 1. unfold requests_get_call. rewrite Hr.
  unfold try_except_HTTPError.
  rewrite (bind_ok _ _ _ _ _ (raise_for_status_passes _ _ Hs)).
  unfold bind, json. rewrite Hj. reflexivity.
Qed.

(** X12: the [try] statement covers the render, so what it catches
    need not come from [raise_for_status].  When the server answers with
    a status outside 400 to 599 and a body whose first article is well
    formed, and the call to the shortener for that article raises an
    exception, then an exception of class [HTTPError] is reported as
    [Error: ...] in red and the subcommand returns normally, while an
    exception of any other class leaves the subcommand; no table is
    printed in either case. *)
Theorem shortener_error_inside_try
    query_string params key endpoint request r lr objects item post n d u e s :
  environ !! "BING_SEARCH_KEY" = Some key ->
  environ !! "BING_SEARCH_ENDPOINT" = Some endpoint ->
  request = EvGet (endpoint +:+ "v7.0/news" +:+ query_string)
              [("Ocp-Apim-Subscription-Key"%string, key)] params ->
  requests_get (trace s) (endpoint +:+ "v7.0/news" +:+ query_string)
    [("Ocp-Apim-Subscription-Key"%string, key)] params = Ok r ->
  status_code r < 400 \/ 600 <= status_code r ->
  response_json r = Ok (VDict lr, objects) ->
  deref (objects ∪ store s) lr !! "value" = Some (VList (item :: post)) ->
  article (objects ∪ store s) item n d u ->
  short (trace s ++ [request]) u = Raise e ->
  exists h',
    search_and_output_bing query_string params s =
    match e with
    | HTTPError message =>
        (Ok tt, State h' (trace s ++ [request; EvShort u;
                                      EvSecho ("Error: " +:+ message) (Some "red"%string)]))
    | _ => (Raise e, State h' (trace s ++ [request; EvShort u]))
    end.
Proof.
  intros Hk He -> Hr Hs Hj Hv Ha Hshort.
  rewrite (search_and_output_bing_body _ _ _ _ _ _ _ _ Hk He Hr Hs Hj).
  match goal with |- context [EvGet ?a ?b ?c] => set (request := EvGet a b c) in * end.
  set (s0 := State (objects ∪ store s) (trace s ++ [request])).
  destruct (clean_item_article s0 item n d u Ha) as (h' & E & _).
  simpl trace in E. rewrite Hshort in E.
  assert (print_bing_results (VDict lr) s0 =
          (Raise e, State h' ((trace s ++ [request]) ++ [EvShort u]))) as P.
  { eapply print_bing_results_aborted; [exact Hv|].
    simpl for_each. by apply bind_raise. }
  exists h'. unfold try_except_HTTPError. rewrite P.
  rewrite <- app_assoc. simpl.
  destruct e; try reflexivity.
  unfold emit. simpl. rewrite <- app_assoc. reflexivity.
Qed.

(** X13: a body that cannot be decoded is not an HTTP error.  When
    the server answers with a status outside 400 to 599 and
    [response.json()] raises an exception that is not an [HTTPError],
    the exception leaves [search_and_output_bing] right after the
    request: no error message and no table are printed, no dictionary
    is created, and the exit status is 1. *)
Theorem undecodable_body_escapes query_string params key endpoint r e s :
  environ !! "BING_SEARCH_KEY" = Some key ->
  environ !! "BING_SEARCH_ENDPOINT" = Some endpoint ->
  requests_get (trace s) (endpoint +:+ "v7.0/news" +:+ query_string)
    [("Ocp-Apim-Subscription-Key"%string, key)] params = Ok r ->
  status_code r < 400 \/ 600 <= status_code r ->
  response_json r = Raise e ->
  (forall message, e <> HTTPError message) ->
  search_and_output_bing query_string params s =
    (Raise e, State (store s)
                (trace s ++ [EvGet (endpoint +:+ "v7.0/news" +:+ query_string)
                               [("Ocp-Apim-Subscription-Key"%string, key)] params])) /\
  exit_status (fst (search_and_output_bing query_string params s)) = 1.
Proof.
  intros Hk He Hr Hs Hj Hne.
  assert (search_and_output_bing query_string params s =
          (Raise e, State (store s)
                      (trace s ++ [EvGet (endpoint +:+ "v7.0/news" +:+ query_string)
                                     [("Ocp-Apim-Subscription-Key"%string, key)] params])))
    as E.
  { unfold search_and_output_bing, getenv. rewrite Hk, He.
    unfold bind at 1. unfold requests_get_call. rewrite Hr.
    unfold try_except_HTTPError.
    rewrite (bind_ok _ _ _ _ _ (raise_for_status_passes _ _ Hs)).
    unfold bind, json. rewrite Hj.
    destruct e; try reflexivity. by destruct (Hne msg). }
  rewrite E. by split.
Qed.

Lemma for_each_articles_calls h0 items :
  (forall tr url, exists a, short tr url = Ok a) ->
  Forall (fun item => exists n d u, article h0 item n d u) items ->
  forall cleaned_list s,
    evolves h0 (store s) ->
    exists rows urls h',
      for_each items cleaned_list s =
        (Ok (cleaned_list ++ rows), State h' (trace s ++ (EvShort <$> urls))) /\
      Forall2 (fun item url => exists n d, article h0 item n d url) items urls /\
      Forall2 (row_of h0) items rows /\
      evolves h0 h'.
Proof.
  intros Hshort. induction 1 as [|item rest (n & d & u & A) _ IH]; intros cleaned_list s Hs.
  - exists [], [], (store s). simpl. rewrite !app_nil_r. destruct s.
    split; [reflexivity|]. split; [constructor|]. split; [constructor | exact Hs].
  - simpl.
    destruct (clean_item_article s item n d u) as (h1 & E1 & H1);
      [by eapply article_evolves|].
    destruct (Hshort (trace s) u) as (a & Ha). rewrite Ha in E1.
    rewrite (bind_ok _ _ _ _ _ E1).
    destruct (IH (cleaned_list ++ [Row (cell n 40) (cell d 60) a])
                (State h1 (trace s ++ [EvShort u]))) as (rows & urls & h' & E & F & R & H');
      [by eapply evolves_trans|].
    exists (Row (cell n 40) (cell d 60) a :: rows), (u :: urls), h'.
    rewrite E. simpl. rewrite <- !app_assoc. simpl.
    split; [reflexivity|]. split; [constructor; eauto|]. split; [|exact H'].
    constructor; [|done]. exists n, d, u. simpl. eauto 10.
Qed.

Lemma search_and_output_bing_success query_string params key endpoint r lr objects items s :
  environ !! "BING_SEARCH_KEY" = Some key ->
  environ !! "BING_SEARCH_ENDPOINT" = Some endpoint ->
  requests_get (trace s) (endpoint +:+ "v7.0/news" +:+ query_string)
    [("Ocp-Apim-Subscription-Key"%string, key)] params = Ok r ->
  status_code r < 400 \/ 600 <= status_code r ->
  response_json r = Ok (VDict lr, objects) ->
  deref (objects ∪ store s) lr !! "value" = Some (VList items) ->
  Forall (fun item => exists n d u, article (objects ∪ store s) item n d u) items ->
  (forall tr url, exists a, short tr url = Ok a) ->
  exists rows urls tail h',
    search_and_output_bing query_string params s =
    (Ok tt, State h' (trace s ++
                      EvGet (endpoint +:+ "v7.0/news" +:+ query_string)
                        [("Ocp-Apim-Subscription-Key"%string, key)] params
                      :: (EvShort <$> urls) ++ EvTable rows :: tail)) /\
    Forall2 (fun item url => exists n d, article (objects ∪ store s) item n d url) items urls /\
    Forall (fun e => is_table e = false /\ is_request e = false) tail /\
    Forall2 (row_of (objects ∪ store s)) items rows.
Proof.
  intros Hk He Hr Hs Hj Hv Ha Hshort.
  rewrite (search_and_output_bing_body _ _ _ _ _ _ _ _ Hk He Hr Hs Hj).
  match goal with |- context [try_except_HTTPError _ _ ?st] => set (s0 := st) end.
  destruct (for_each_articles_calls (objects ∪ store s) items Hshort Ha [] s0 (evolves_refl _))
    as (rows & urls & h1 & E & Fs & Fr & _).
  destruct (print_bing_results_cleaned s0 lr items rows _ Hv E) as (tail & s2 & P & T & Ft).
  destruct (appends_print_bing_results (fun e => is_request e = false) (VDict lr)
              ltac:(done) _ _ _ P) as (evs & T' & Fe).
  exists rows, urls, tail, (store s2).
  unfold try_except_HTTPError. rewrite P.
  split; [|split; [exact Fs|split; [|exact Fr]]].
  - f_equal. destruct s2 as [h2 t2]. simpl in *. f_equal. rewrite T.
    by rewrite <- !app_assoc.
  - rewrite T in T'. simpl in T'. rewrite <- app_assoc in T'.
    apply app_inv_head in T'. subst evs.
    apply Forall_app in Fe as [_ Fe]. apply Forall_cons in Fe as [_ Fe].
    rewrite Forall_forall in Ft, Fe. apply Forall_forall. intros x Hx. split; auto.
Qed.

(** X14: a successful run, end to end.  With the environment
    configured, a server that answers with a status outside 400 to 599
    and a body whose [value] lists well-formed article records, and a
    shortener that answers, every subcommand returns normally, so the
    process exits with status 0, and what happened is, in this order:
    the announcement, one request, one call to the shortener per
    article with the address of that article, one table with the row of
    each article in the order of the response, and after the table
    neither a table nor a request. *)
Theorem successful_search_prints_table c key endpoint r lr objects items s :
  environ !! "BING_SEARCH_KEY" = Some key ->
  environ !! "BING_SEARCH_ENDPOINT" = Some endpoint ->
  (forall tr url headers params, requests_get tr url headers params = Ok r) ->
  status_code r < 400 \/ 600 <= status_code r ->
  response_json r = Ok (VDict lr, objects) ->
  deref (objects ∪ store s) lr !! "value" = Some (VList items) ->
  Forall (fun item => exists n d u, article (objects ∪ store s) item n d u) items ->
  (forall tr url, exists a, short tr url = Ok a) ->
  exists searching request rows urls tail h',
    cli c s = (Ok tt, State h' (trace s ++ EvSecho searching None :: request
                                  :: (EvShort <$> urls) ++ EvTable rows :: tail)) /\
    is_request request = true /\
    Forall2 (fun item url => exists n d, article (objects ∪ store s) item n d url) items urls /\
    Forall (fun e => is_table e = false /\ is_request e = false) tail /\
    Forall2 (row_of (objects ∪ store s)) items rows /\
    exit_status (fst (cli c s)) = 0.
Proof.
  intros Hk He Hget Hs Hj Hv Ha Hshort.
  assert (forall searching query_string params, exists request rows urls tail h',
    (let* _ := emit (EvSecho searching None) in search_and_output_bing query_string params) s
    = (Ok tt, State h' (trace s ++ EvSecho searching None :: request
                          :: (EvShort <$> urls) ++ EvTable rows :: tail)) /\
    is_request request = true /\
    Forall2 (fun item url => exists n d, article (objects ∪ store s) item n d url) items urls /\
    Forall (fun e => is_table e = false /\ is_request e = false) tail /\
    Forall2 (row_of (objects ∪ store s)) items rows) as E.
  { intros. unfold bind at 1, emit.
    match goal with |- context [search_and_output_bing _ _ ?st] => set (s1 := st) end.
    destruct (search_and_output_bing_success query_string params key endpoint r lr objects
                items s1 Hk He (Hget _ _ _ _) Hs Hj Hv Ha Hshort)
      as (rows & urls & tail & h' & E & F1 & F2 & F3).
    eexists _, rows, urls, tail, h'. rewrite E. subst s1. simpl.
    rewrite <- app_assoc. simpl. repeat split; done. }
  assert (forall m : M unit, (exists request rows urls tail h' searching,
    m s = (Ok tt, State h' (trace s ++ EvSecho searching None :: request
                              :: (EvShort <$> urls) ++ EvTable rows :: tail)) /\
    is_request request = true /\
    Forall2 (fun item url => exists n d, article (objects ∪ store s) item n d url) items urls /\
    Forall (fun e => is_table e = false /\ is_request e = false) tail /\
    Forall2 (row_of (objects ∪ store s)) items rows) ->
    exists searching request rows urls tail h',
    m s = (Ok tt, State h' (trace s ++ EvSecho searching None :: request
                              :: (EvShort <$> urls) ++ EvTable rows :: tail)) /\
    is_request request = true /\
    Forall2 (fun item url => exists n d, article (objects ∪ store s) item n d url) items urls /\
    Forall (fun e => is_table e = false /\ is_request e = false) tail /\
    Forall2 (row_of (objects ∪ store s)) items rows /\
    exit_status (fst (m s)) = 0) as W.
  { intros m (request & rows & urls & tail & h' & searching & E1 & E2 & E3 & E4 & E5).
    exists searching, request, rows, urls, tail, h'. rewrite E1.
    repeat split; try done. }
  destruct c; simpl; unfold search_bing_by_phrase, search_bing_by_category,
    search_bing_by_trending; apply W;
    match goal with |- context [emit (EvSecho ?m None)] =>
      match goal with |- context [search_and_output_bing ?q ?ps] =>
        destruct (E m q ps) as (request & rows & urls & tail & h' & E') end end;
    exists request, rows, urls, tail, h'; eexists; exact E'.
Qed.

(** ** What the render writes and what it calls *)

(** X15: whatever the response holds and however the render ends, the
    only dictionaries it writes to are those that have both [name] and
    [webSearchUrl], and in them only the keys [title], [url] and
    [description]: every other key of every dictionary, and every
    dictionary that lacks one of the two keys, is after the render as
    it was before. *)
Theorem render_writes_only_normalized_keys v s r s' :
  print_bing_results v s = (r, s') ->
  forall l,
    (forall k, k <> "title"%string -> k <> "url"%string -> k <> "description"%string ->
               deref (store s') l !! k = deref (store s) l !! k) /\
    (deref (store s) l !! "name" = None \/ deref (store s) l !! "webSearchUrl" = None ->
     deref (store s') l = deref (store s) l).
Proof.
  intros E.
  assert (evolves (store s) (store s')) as H.
  { assert (preserves (evolves (store s)) (print_bing_results v)) as P.
    { assert (forall a, preserves (evolves (store s)) (clean_bing_article_list a)) as C.
      { intros a s1 r1 s2 H1 E1. eapply evolves_trans; [exact H1|].
        eapply clean_bing_article_list_evolves; exact E1. }
      unfold print_bing_results. store_steps. }
    eapply P; [apply evolves_refl | exact E]. }
  intros l. destruct (H l) as [H1 H2]. split.
  - intros k K1 K2 K3. apply H1. unfold normalized_key. tauto.
  - intros Hl. apply H2. intros [[x Hx] [y Hy]]. destruct Hl; congruence.
Qed.

(** X16: normalization is idempotent.  For a trending record whose
    first provider has a name and a type that are strings, a second
    normalization of the same dictionary succeeds and leaves the store
    exactly as the first one left it. *)
Theorem normalization_is_idempotent s l li lp others n w pn pt :
  deref (store s) l !! "name" = Some n ->
  deref (store s) l !! "webSearchUrl" = Some w ->
  deref (store s) l !! "image" = Some (VDict li) ->
  deref (store s) li !! "provider" = Some (VList (VDict lp :: others)) ->
  deref (store s) lp !! "name" = Some (VStr pn) ->
  deref (store s) lp !! "_type" = Some (VStr pt) ->
  exists s1,
    clean_trending_article_dictionary (VDict l) s = (Ok (VDict l), s1) /\
    clean_trending_article_dictionary (VDict l) s1 = (Ok (VDict l), s1).
Proof.
  intros Hn Hw Hi Hp Hpn Hpt.
  pose proof (clean_trending_run s l li lp others n w (VStr pn) (VStr pt) Hn Hw Hi Hp Hpn Hpt)
    as E. cbv zeta in E. simpl py_str in E.
  eexists. split; [exact E|].
  set (text := ("Provided by " +:+ pn +:+ ", an " +:+ pt +:+ ".")%string) in *.
  set (d1 := <["description" := VStr text]> (<["url" := w]> (<["title" := n]> (deref (store s) l)))).
  set (s1 := State (<[l := d1]> (store s)) (trace s)).
  assert (forall l' k, ~ normalized_key k -> deref (store s1) l' !! k = deref (store s) l' !! k)
    as K.
  { intros l' k Hk. simpl. destruct (decide (l = l')) as [<-|Hl].
    - rewrite deref_insert_eq. subst d1.
      rewrite !lookup_insert_ne; [done| | |]; intros <-; apply Hk; unfold normalized_key; tauto.
    - by rewrite deref_insert_ne. }
  assert (forall k, (k = "name" \/ k = "webSearchUrl" \/ k = "image" \/ k = "provider"
                     \/ k = "_type")%string -> ~ normalized_key k) as N
    by (intros k [->|[->|[->|[->| ->]]]] [?|[?|?]]; discriminate).
  pose proof (clean_trending_run s1 l li lp others n w (VStr pn) (VStr pt)) as E2.
  cbv zeta in E2. simpl py_str in E2. fold text in E2.
  rewrite E2; try (rewrite K by (apply N; tauto); assumption).
  f_equal. subst s1. simpl. f_equal.
  rewrite deref_insert_eq, insert_insert_eq. f_equal.
  subst d1. apply map_eq. intros k.
  destruct (decide (k = "description"%string)) as [->|K1];
    [by rewrite !lookup_insert_eq|].
  destruct (decide (k = "url"%string)) as [->|K2];
    [by repeat (rewrite lookup_insert_eq || rewrite lookup_insert_ne by done)|].
  destruct (decide (k = "title"%string)) as [->|K3];
    by repeat (rewrite lookup_insert_eq || rewrite lookup_insert_ne by done).
Qed.

Lemma clean_item_calls item s r s' :
  clean_item item s = (Ok r, s') ->
  exists url, trace s' = trace s ++ [EvShort url] /\ short (trace s) url = Ok (URL r).
Proof.
  intros E. unfold clean_item in E.
  apply bind_inv in E as [(b & s1 & E1 & E)|(e & _ & [=])].
  apply is_trending_state in E1 as ->.
  apply bind_inv in E as [(item' & s2 & E2 & E)|(e & _ & [=])].
  assert (trace s2 = trace s) as T2.
  { destruct b; [|by inversion E2].
    destruct (appends_clean_trending (fun _ => False) item _ _ _ E2) as (evs & T & F).
    destruct F as [|x evs []]. by rewrite app_nil_r in T. }
  rewrite <- T2. clear E2 T2.
  assert (forall v k st rv st', getitem v k st = (rv, st') -> st' = st) as G.
  { intros v k st rv st' Eg. unfold getitem in Eg. destruct v; try (by inversion Eg).
    destruct (deref (store st) l !! k); by inversion Eg. }
  assert (forall v width st rv st', wrap_cell v width st = (rv, st') -> st' = st) as W.
  { intros v width st rv st' Ew. unfold wrap_cell, bind, lift, ret in Ew.
    destruct v as [| | | |t| |]; try (by inversion Ew).
    destruct (Textwrap.wrap t width); by inversion Ew. }
  unfold new_dictionary in E.
  apply bind_inv in E as [(x1 & t1 & F1 & E)|(e & _ & [=])]. apply G in F1 as ->.
  apply bind_inv in E as [(x2 & t2 & F2 & E)|(e & _ & [=])]. apply W in F2 as ->.
  apply bind_inv in E as [(x3 & t3 & F3 & E)|(e & _ & [=])]. apply G in F3 as ->.
  apply bind_inv in E as [(x4 & t4 & F4 & E)|(e & _ & [=])]. apply W in F4 as ->.
  apply bind_inv in E as [(x5 & t5 & F5 & E)|(e & _ & [=])]. apply G in F5 as ->.
  apply bind_inv in E as [(x6 & t6 & F6 & E)|(e & _ & [=])].
  rewrite shortener_short_run in F6. inversion F6; subst. inversion E; subst.
  exists x5. split; [reflexivity|]. simpl. done.
Qed.

(** X17: a list of rows comes with exactly one call to the shortener
    per row, in the order of the rows and with nothing between the
    calls, and the URL cell of each row is what the shortener answered
    to the call of that row, made when the trace held the calls of the
    rows before it: no row reuses or goes without an answer. *)
Theorem one_shortener_call_per_row v s rows s' :
  clean_bing_article_list v s = (Ok rows, s') ->
  exists urls,
    trace s' = trace s ++ (EvShort <$> urls) /\
    length urls = length rows /\
    answered (trace s) urls rows.
Proof.
  intros E. unfold clean_bing_article_list in E.
  apply bind_inv in E as [(items & s1 & E1 & E)|(e & _ & [=])].
  assert (s1 = s) as -> by (unfold iterate in E1; destruct v; by inversion E1).
  clear E1.
  assert (forall items cleaned_list s rows s',
    for_each items cleaned_list s = (Ok rows, s') ->
    exists urls new,
      rows = cleaned_list ++ new /\
      trace s' = trace s ++ (EvShort <$> urls) /\
      length urls = length new /\
      answered (trace s) urls new) as H.
  { clear. induction items as [|item rest IH]; intros cleaned_list s rows s' E; simpl in E.
    - inversion E; subst. exists [], []. simpl. rewrite !app_nil_r. by repeat split.
    - apply bind_inv in E as [(new & s1 & E1 & E)|(e & _ & [=])].
      apply clean_item_calls in E1 as (url & T1 & U1).
      apply IH in E as (urls & news & -> & T & L & F).
      exists (url :: urls), (new :: news). rewrite <- app_assoc. split; [done|].
      split; [rewrite T, T1; simpl; by rewrite <- app_assoc|].
      split; [simpl; by rewrite L|].
      simpl. split; [exact U1|]. by rewrite <- T1. }
  apply H in E as (urls & new & -> & T & L & F). exists urls. by repeat split.
Qed.

Lemma clean_item_cells item s r s' :
  clean_item item s = (Ok r, s') ->
  exists name description, Title r = cell name 40 /\ Description r = cell description 60.
Proof.
  intros E. unfold clean_item in E.
  apply bind_inv in E as [(b & s1 & _ & E)|(e & _ & [=])].
  apply bind_inv in E as [(item' & s2 & _ & E)|(e & _ & [=])].
  assert (forall v width st x st', wrap_cell v width st = (Ok x, st') ->
                                   width <> 0%nat -> exists t, x = cell t width) as W.
  { intros v width st x st' Ew Hw. destruct v as [| | | |t| |]; try (by inversion Ew).
    rewrite wrap_cell_str in Ew by done. inversion Ew. eauto. }
  unfold new_dictionary in E.
  apply bind_inv in E as [(x1 & t1 & _ & E)|(e & _ & [=])].
  apply bind_inv in E as [(x2 & t2 & F2 & E)|(e & _ & [=])].
  apply W in F2 as (name & ->); [|done].
  apply bind_inv in E as [(x3 & t3 & _ & E)|(e & _ & [=])].
  apply bind_inv in E as [(x4 & t4 & F4 & E)|(e & _ & [=])].
  apply W in F4 as (description & ->); [|done].
  apply bind_inv in E as [(x5 & t5 & _ & E)|(e & _ & [=])].
  apply bind_inv in E as [(x6 & t6 & _ & E)|(e & _ & [=])].
  inversion E; subst. simpl. eauto.
Qed.

End Program.

(** * Properties of [textwrap.wrap] *)

Module TextwrapFacts.
Import Textwrap.
Local Open Scope nat_scope.

(** ** The inner loop *)

Lemma fill_spec width chunks : forall cur_line cur_len cur_line' cur_len' rest,
  fill width cur_line cur_len chunks = (cur_line', cur_len', rest) ->
  exists taken,
    cur_line' = cur_line ++ taken /\
    chunks = taken ++ rest /\
    cur_len' = cur_len + length (concat taken) /\
    (cur_len <= width -> cur_len' <= width) /\
    (forall d rest', rest = d :: rest' -> width < cur_len' + length d).
Proof.
  induction chunks as [|c chunks IH]; intros cur_line cur_len cur_line' cur_len' rest E; simpl in E.
  - inversion E; subst. exists []. rewrite app_nil_r. simpl.
    split; [done|]. split; [done|]. split; [lia|]. split; [done|]. discriminate.
  - destruct (cur_len + length c <=? width) eqn:Hfit.
    + apply IH in E as (taken & -> & -> & -> & Hw & Hr).
      exists (c :: taken). rewrite <- app_assoc. simpl. rewrite length_app.
      apply Nat.leb_le in Hfit.
      split; [done|]. split; [done|]. split; [lia|]. split; [intros; apply Hw; lia | exact Hr].
    + inversion E; subst. exists []. rewrite app_nil_r. simpl.
      apply Nat.leb_gt in Hfit.
      split; [done|]. split; [done|]. split; [lia|]. split; [done|].
      intros d rest' [= <- <-]. lia.
Qed.

Lemma rfind_hyphen_lt chunk : forall stop i, rfind_hyphen chunk stop = Some i -> i < stop.
Proof.
  induction chunk as [|c chunk IH]; intros [|stop] i E; simpl in E; try discriminate.
  destruct (rfind_hyphen chunk stop) as [j|] eqn:Ej.
  - inversion E; subst. apply IH in Ej. lia.
  - destruct (is_hyphen c); inversion E; subst. lia.
Qed.

Lemma handle_long_word_cut chunk rest cur_line cur_len width :
  handle_long_word (chunk :: rest) cur_line cur_len width =
  (cur_line ++ [take (cut chunk cur_len width) chunk],
   drop (cut chunk cur_len width) chunk :: rest).
Proof. reflexivity. Qed.

Lemma cut_le chunk cur_len width :
  cut chunk cur_len width <= (if width <? 1 then 1 else width - cur_len).
Proof.
  unfold cut. set (space_left := if width <? 1 then 1 else width - cur_len).
  destruct (space_left <? length chunk); [|lia].
  destruct (rfind_hyphen chunk space_left) as [hyphen|] eqn:E; [|lia].
  apply rfind_hyphen_lt in E.
  destruct ((0 <? hyphen) && _); lia.
Qed.


(** ** One pass of the outer loop *)

(** [wrap_line], taken apart: the chunks that fit are [taken]; when the
    next chunk is longer than the width a piece of it is added. *)
Lemma wrap_line_spec width started chunks :
  exists taken rest,
    dropped started chunks = taken ++ rest /\
    length (concat taken) <= width /\
    (forall d rest', rest = d :: rest' -> width < length (concat taken) + length d) /\
    wrap_line width started chunks =
    match rest with
    | d :: rest' =>
        if width <? length d then
          let e := cut d (length (concat taken)) width in
          (line_of (trimmed (taken ++ [take e d])), drop e d :: rest')
        else (line_of (trimmed taken), rest)
    | [] => (line_of (trimmed taken), rest)
    end.
Proof.
  unfold wrap_line. fold (dropped started chunks).
  destruct (fill width [] 0 (dropped started chunks)) as [[cur_line cur_len] rest] eqn:E.
  apply fill_spec in E as (taken & -> & Hc & -> & Hw & Hr). simpl in *.
  exists taken, rest. split; [done|]. split; [lia|]. split; [exact Hr|].
  destruct rest as [|d rest']; [reflexivity|].
  destruct (width <? length d); [|reflexivity].
  rewrite handle_long_word_cut. reflexivity.
Qed.

Lemma length_concat_removelast (l : list (list ascii)) :
  length (concat (removelast l)) <= length (concat l).
Proof.
  induction l as [|x l IH]; [done|]. simpl removelast.
  destruct l as [|y l]; simpl in *; rewrite ?length_app in *; simpl in *; lia.
Qed.

Lemma length_concat_trimmed l : length (concat (trimmed l)) <= length (concat l).
Proof.
  unfold trimmed. destruct (last l) as [c|]; [|done].
  destruct (blank c); [apply length_concat_removelast | done].
Qed.

(** A line never exceeds the width. *)
Lemma wrap_line_width width started chunks line rest :
  1 <= width ->
  wrap_line width started chunks = (Some line, rest) ->
  length line <= width.
Proof.
  intros Hw E.
  destruct (wrap_line_spec width started chunks) as (taken & rest0 & _ & Hlen & _ & E').
  rewrite E' in E. clear E'.
  assert (forall cur, length (concat cur) <= width ->
                      line_of (trimmed cur) = Some line -> length line <= width) as H.
  { intros cur Hcur Hl. unfold line_of in Hl.
    pose proof (length_concat_trimmed cur) as Ht.
    destruct (trimmed cur) as [|x xs]; [discriminate|]. injection Hl as <-.
    simpl in *. lia. }
  destruct rest0 as [|d rest']; [inversion E; eauto|].
  destruct (width <? length d) eqn:Hd; [|inversion E; eauto].
  inversion E as [[El Er]]. eapply H; [|exact El].
  rewrite concat_app, length_app. simpl. rewrite app_nil_r, length_take.
  pose proof (cut_le d (length (concat taken)) width) as Hcut.
  replace (width <? 1) with false in Hcut by (symmetry; apply Nat.ltb_ge; lia).
  lia.
Qed.

Lemma wrap_loop_width fuel width : forall lines chunks,
  1 <= width ->
  Forall (fun line => length line <= width) lines ->
  Forall (fun line => length line <= width) (wrap_loop fuel width lines chunks).
Proof.
  induction fuel as [|fuel IH]; intros lines chunks Hw Hl; simpl; [done|].
  destruct chunks as [|c chunks]; [done|].
  destruct (wrap_line width _ (c :: chunks)) as [line rest] eqn:E.
  apply IH; [done|]. apply Forall_app. split; [done|].
  destruct line as [line|]; simpl; [|constructor].
  constructor; [|constructor]. eapply wrap_line_width; eauto.
Qed.


Lemma length_string_of_list_ascii l : String.length (string_of_list_ascii l) = length l.
Proof. induction l; simpl; congruence. Qed.

(** Every line [textwrap.wrap] returns has at most [width] characters. *)
Lemma lines_width text width :
  1 <= width -> Forall (fun line => String.length line <= width) (lines text width).
Proof.
  intros Hw. unfold lines, wrap_lines, wrap_chunks.
  apply Forall_fmap. eapply Forall_impl.
  - apply wrap_loop_width; [done | constructor].
  - intros line H. simpl. by rewrite length_string_of_list_ascii.
Qed.

(** ** Enough fuel *)







(** ** Words *)









(** ** Lines made of whole words *)

Lemma is_whitespace_isspace c : is_whitespace c = true -> isspace c = true.
Proof. destruct c as [[|] [|] [|] [|] [|] [|] [|] [|]]; by vm_compute. Qed.

Lemma whitespace_blank chunk : forallb is_whitespace chunk = true -> blank chunk = true.
Proof.
  unfold blank. induction chunk as [|c chunk IH]; [done|]. simpl.
  intros H. apply andb_true_iff in H as [Hc H].
  by rewrite (is_whitespace_isspace _ Hc), IH.
Qed.

Lemma forallb_take (p : ascii -> bool) n l :
  forallb p l = true -> forallb p (take n l) = true.
Proof.
  revert n. induction l as [|x l IH]; intros [|n] H; simpl in *; try done.
  apply andb_true_iff in H as [Hx H]. by rewrite Hx, IH.
Qed.

Lemma forallb_drop (p : ascii -> bool) n l :
  forallb p l = true -> forallb p (drop n l) = true.
Proof.
  revert n. induction l as [|x l IH]; intros [|n] H; simpl in *; try done.
  apply andb_true_iff in H as [Hx H]. by apply IH.
Qed.











(** ** Splitting *)

Lemma run_length_le p text : run_length p text <= length text.
Proof. induction text as [|c text IH]; simpl; [lia|]. destruct (p c); simpl; lia. Qed.



Lemma match_length_pos before c rest : 1 <= match_length before (c :: rest).
Proof.
  unfold match_length. destruct (is_whitespace c) eqn:Hc.
  - simpl. rewrite Hc. lia.
  - destruct (heads is_word_punct before); [|lia].
    unfold em_dash. destruct ((2 <=? _) && _) eqn:E; [|lia].
    apply andb_true_iff in E as [E _]. apply Nat.leb_le in E. lia.
Qed.

(** The fuel [split] starts with is enough: the chunks make up the text. *)
Lemma concat_split_from fuel : forall before text,
  length text <= fuel -> concat (split_from fuel before text) = text.
Proof.
  induction fuel as [|fuel IH]; intros before text H.
  - destruct text; [done | simpl in H; lia].
  - destruct text as [|c rest]; [done|].
    cbn [split_from concat]. rewrite IH; [apply take_drop|].
    pose proof (match_length_pos before c rest). rewrite length_drop. simpl in *. lia.
Qed.

Lemma concat_split text : concat (split text) = text.
Proof. by apply concat_split_from. Qed.


(** ** Whitespace munging *)


Lemma space_is_whitespace : is_whitespace space = true.
Proof. reflexivity. Qed.

Lemma forallb_repeat (p : ascii -> bool) c n : p c = true -> forallb p (repeat c n) = true.
Proof. intros H. induction n; simpl; [done|]. by rewrite H. Qed.





Lemma forallb_expandtabs (p : ascii -> bool) text : forall pos,
  p space = true -> forallb p text = true -> forallb p (expandtabs 8 pos text) = true.
Proof.
  induction text as [|c rest IH]; intros pos Hs H; [done|]. simpl in H.
  apply andb_true_iff in H as [Hc H]. cbn [expandtabs].
  destruct (in_range 9 9 c).
  - cbn [Nat.ltb Nat.leb]. rewrite forallb_app, forallb_repeat by done. by apply IH.
  - simpl. rewrite Hc. by apply IH.
Qed.

Lemma forallb_munge_whitespace (p : ascii -> bool) text :
  p space = true -> forallb p text = true -> forallb p (munge_whitespace text) = true.
Proof.
  intros Hs H. unfold munge_whitespace.
  pose proof (forallb_expandtabs p text 0 Hs H) as H'.
  induction (expandtabs 8 0 text) as [|c rest IH]; [done|]. rewrite fmap_cons.
  cbn [forallb] in *. apply andb_true_iff in H' as [Hc H']. rewrite IH by done.
  destruct (is_whitespace c); by rewrite ?Hs, ?Hc.
Qed.

(** ** Wrapping keeps words whole *)



(** ** More than one line *)








(** ** The chunks of any text *)







(** ** Texts in which no hyphen precedes a word character *)

















(** ** Whole words, whatever the hyphens *)





(** ** At least two lines, whatever the words *)












(** ** Lines made of whole chunks *)






End TextwrapFacts.

(** * Cells *)


(** ** The lines of a cell *)

Module CellFacts.
Import Textwrap.
Local Open Scope nat_scope.

Lemma split_lines_not_nil text : split_lines text <> [].
Proof.
  destruct text as [|c rest]; simpl; [done|].
  destruct (Ascii.eqb c (ascii_of_nat 10)); [done|].
  by destruct (split_lines rest).
Qed.

Lemma split_lines_app a b :
  split_lines (a +:+ String (ascii_of_nat 10) b) = split_lines a ++ split_lines b.
Proof.
  induction a as [|c a IH]; [reflexivity|].
  change (split_lines (String c (a +:+ String (ascii_of_nat 10) b)) =
          split_lines (String c a) ++ split_lines b).
  cbn [split_lines]. rewrite IH.
  destruct (Ascii.eqb c (ascii_of_nat 10)); [reflexivity|].
  pose proof (split_lines_not_nil a). by destruct (split_lines a).
Qed.

Lemma split_lines_length text :
  Forall (fun line => String.length line <= String.length text) (split_lines text).
Proof.
  induction text as [|c rest IH]; [constructor; [simpl; lia | constructor]|].
  cbn [split_lines]. destruct (Ascii.eqb c (ascii_of_nat 10)).
  - constructor; [simpl; lia|]. eapply Forall_impl; [exact IH|]. simpl. intros; lia.
  - destruct (split_lines rest) as [|line more]; [constructor; [simpl; lia | constructor]|].
    apply Forall_cons in IH as [H1 H2]. constructor; [simpl; lia|].
    eapply Forall_impl; [exact H2|]. simpl. intros; lia.
Qed.

Lemma join_cons line more :
  more <> [] ->
  join newline (line :: more) = (line +:+ String (ascii_of_nat 10) (join newline more))%string.
Proof. destruct more; [done|]. reflexivity. Qed.

(** Splitting a joined list of lines gives parts no longer than the
    longest line. *)
Lemma split_lines_join_width width lines :
  Forall (fun line => String.length line <= width) lines ->
  Forall (fun line => String.length line <= width) (split_lines (join newline lines)).
Proof.
  induction 1 as [|line more Hl Hm IH]; [constructor; [simpl; lia | constructor]|].
  destruct more as [|next more].
  - simpl join. eapply Forall_impl; [apply split_lines_length|]. simpl. intros; lia.
  - rewrite join_cons by done. rewrite split_lines_app. apply Forall_app. split; [|exact IH].
    eapply Forall_impl; [apply split_lines_length|]. simpl. intros; lia.
Qed.

(** A text without a newline character is its own single line. *)
Lemma split_lines_single (chars : list ascii) :
  Forall (fun c => c <> ascii_of_nat 10) chars ->
  split_lines (string_of_list_ascii chars) = [string_of_list_ascii chars].
Proof.
  induction 1 as [|c rest Hc _ IH]; [reflexivity|].
  cbn [string_of_list_ascii split_lines]. rewrite IH.
  destruct (Ascii.eqb_spec c (ascii_of_nat 10)); [done|reflexivity].
Qed.

Lemma split_lines_join (L : list (list ascii)) :
  L <> [] ->
  Forall (Forall (fun c => c <> ascii_of_nat 10)) L ->
  split_lines (join newline (string_of_list_ascii <$> L)) = string_of_list_ascii <$> L.
Proof.
  intros HL H. induction H as [|chars more Hc Hm IH]; [done|].
  destruct more as [|next more].
  - simpl. by apply split_lines_single.
  - rewrite fmap_cons. rewrite join_cons by done. rewrite split_lines_app.
    rewrite IH by done. by rewrite split_lines_single.
Qed.

(** *** The characters of the wrapped lines come from the chunks *)

Section Characters.
Variable P : ascii -> Prop.

Lemma Forall_removelast {A} (Q : A -> Prop) (l : list A) : Forall Q l -> Forall Q (removelast l).
Proof.
  induction 1 as [|x l Hx Hl IH]; [constructor|].
  simpl. destruct l; [constructor|]. by constructor.
Qed.

Lemma Forall_concat_chars (chunks : list (list ascii)) :
  Forall (Forall P) chunks -> Forall P (concat chunks).
Proof. induction 1; simpl; [constructor|]. by apply Forall_app. Qed.

Lemma trimmed_chars cur : Forall (Forall P) cur -> Forall (Forall P) (trimmed cur).
Proof.
  intros H. unfold trimmed. destruct (last cur); [|done].
  destruct (blank l); [by apply Forall_removelast | done].
Qed.

Lemma line_of_chars cur line :
  Forall (Forall P) cur -> line_of cur = Some line -> Forall P line.
Proof.
  intros H E. apply Forall_concat_chars in H.
  destruct cur; [discriminate E|]. by injection E as <-.
Qed.

Lemma dropped_chars started chunks :
  Forall (Forall P) chunks -> Forall (Forall P) (dropped started chunks).
Proof.
  intros H. unfold dropped. destruct H as [|c rest Hc Hr]; [constructor|].
  destruct (blank c && started); [done | by constructor].
Qed.

Lemma wrap_line_chars width started chunks :
  Forall (Forall P) chunks ->
  Forall (Forall P) (option_list (fst (wrap_line width started chunks))) /\
  Forall (Forall P) (snd (wrap_line width started chunks)).
Proof.
  intros H.
  destruct (TextwrapFacts.wrap_line_spec width started chunks)
    as (taken & rest & E & _ & _ & W).
  apply (dropped_chars started) in H. rewrite E in H.
  apply Forall_app in H as [Ht Hr].
  assert (forall cur, Forall (Forall P) cur ->
                      Forall (Forall P) (option_list (line_of (trimmed cur)))) as L.
  { intros cur Hc. destruct (line_of (trimmed cur)) as [line|] eqn:El; [|constructor].
    repeat constructor. eapply line_of_chars; [|exact El]. by apply trimmed_chars. }
  rewrite W. destruct rest as [|d rest']; [by split; [apply L|]|].
  apply Forall_cons in Hr as [Hd Hr'].
  destruct (width <? length d); cbv zeta; simpl fst; simpl snd.
  - split.
    + apply L, Forall_app. split; [done|]. repeat constructor. by apply Forall_take.
    + constructor; [by apply Forall_drop | done].
  - split; [by apply L | by constructor].
Qed.

Lemma wrap_loop_chars fuel width : forall lines chunks,
  Forall (Forall P) lines -> Forall (Forall P) chunks ->
  Forall (Forall P) (wrap_loop fuel width lines chunks).
Proof.
  induction fuel as [|fuel IH]; intros lines chunks Hl Hc; [done|].
  destruct chunks as [|c cs]; [done|]. cbn [wrap_loop].
  destruct (wrap_line_chars width (negb (bool_decide (lines = []))) (c :: cs) Hc) as [H1 H2].
  destruct (wrap_line width (negb (bool_decide (lines = []))) (c :: cs)) as [line chunks'].
  apply IH; [|exact H2]. apply Forall_app. by split.
Qed.

Lemma split_chars text : Forall P text -> Forall (Forall P) (split text).
Proof.
  intros H. rewrite <- (TextwrapFacts.concat_split text) in H.
  induction (split text) as [|c cs IH]; [constructor|].
  simpl in H. apply Forall_app in H as [Hc Hcs]. constructor; auto.
Qed.

End Characters.

Lemma munge_whitespace_chars text :
  Forall (fun c => c <> ascii_of_nat 10) (munge_whitespace text).
Proof.
  unfold munge_whitespace. apply Forall_fmap, Forall_forall. intros c _. simpl.
  destruct (is_whitespace c) eqn:E; [by vm_compute|].
  intros ->. by vm_compute in E.
Qed.

Lemma wrap_lines_chars text width :
  Forall (Forall (fun c => c <> ascii_of_nat 10)) (wrap_lines text width).
Proof.
  unfold wrap_lines, wrap_chunks. apply wrap_loop_chars; [constructor|].
  apply split_chars, munge_whitespace_chars.
Qed.

(** *** A text that is all whitespace *)

Lemma run_length_all (p : ascii -> bool) text :
  forallb p text = true -> run_length p text = length text.
Proof.
  induction text as [|c rest IH]; [done|]. simpl.
  intros [Hc Hr]%andb_prop. rewrite Hc. by rewrite IH.
Qed.

Lemma split_blank c rest :
  forallb is_whitespace (c :: rest) = true -> split (c :: rest) = [c :: rest].
Proof.
  intros H. unfold split. cbn [length split_from].
  assert (match_length [] (c :: rest) = length (c :: rest)) as ->.
  { unfold match_length.
    assert (is_whitespace c = true) as -> by (simpl in H; by apply andb_prop in H as [? _]).
    by apply run_length_all. }
  rewrite take_ge, drop_ge by done. by destruct (length rest).
Qed.

Lemma wrap_loop_blank width fuel : forall chunk,
  forallb is_whitespace chunk = true -> wrap_loop fuel width [] [chunk] = [].
Proof.
  induction fuel as [|fuel IH]; intros chunk H; [done|].
  cbn [wrap_loop]. rewrite bool_decide_eq_true_2 by done. cbn [negb].
  destruct (TextwrapFacts.wrap_line_spec width false [chunk]) as (taken & rest & E & _ & F & W).
  rewrite W. clear W. cbn [dropped] in E. rewrite andb_false_r in E.
  assert (forall piece, forallb is_whitespace piece = true ->
                        line_of (trimmed [piece]) = None) as L.
  { intros piece Hp. unfold trimmed. cbn [last].
    by rewrite (TextwrapFacts.whitespace_blank _ Hp). }
  destruct taken as [|t taken].
  - simpl in E. subst rest. destruct (width <? length chunk) eqn:Hw.
    + cbv zeta. cbn [app]. rewrite L by (by apply TextwrapFacts.forallb_take).
      apply IH. by apply TextwrapFacts.forallb_drop.
    + specialize (F chunk [] eq_refl). apply Nat.ltb_ge in Hw. simpl in F. lia.
  - injection E as <- E. symmetry in E. apply app_eq_nil in E as [-> ->].
    rewrite L by done. by destruct fuel.
Qed.

Lemma wrap_lines_blank text width :
  forallb is_whitespace text = true -> wrap_lines text width = [].
Proof.
  intros H. unfold wrap_lines, wrap_chunks.
  pose proof (TextwrapFacts.forallb_munge_whitespace is_whitespace text eq_refl H) as M.
  destruct (munge_whitespace text) as [|c rest]; [reflexivity|].
  rewrite (split_blank _ _ M). by apply wrap_loop_blank.
Qed.

End CellFacts.

(** X18: in every row the loop body builds, from a record of either
    shape and in any state, no line of the Title cell is longer than 40
    characters and no line of the Description cell is longer than 60,
    the lines of a cell being the parts between its newline
    characters. *)
Theorem built_cells_fit short str_compound item s r s' :
  clean_item short str_compound item s = (Ok r, s') ->
  Forall (fun line => (String.length line <= 40)%nat) (split_lines (Title r)) /\
  Forall (fun line => (String.length line <= 60)%nat) (split_lines (Description r)).
Proof.
  intros E. destruct (clean_item_cells _ _ _ _ _ _ E) as (t & d & -> & ->).
  split; apply CellFacts.split_lines_join_width, TextwrapFacts.lines_width; lia.
Qed.

(** X19: joining the wrapped lines loses nothing.  A wrapped line
    never contains a newline character, so splitting a cell at its
    newline characters gives back exactly the lines [textwrap.wrap]
    returned, whatever the text and the width; the one exception is the
    text that wraps to no line at all, whose cell is the empty string. *)
Theorem cell_splits_into_wrapped_lines text width :
  split_lines (cell text width) =
  match Textwrap.lines text width with
  | [] => [EmptyString]
  | wrapped => wrapped
  end.
Proof.
  unfold cell, Textwrap.lines.
  pose proof (CellFacts.wrap_lines_chars (list_ascii_of_string text) width) as H.
  destruct (Textwrap.wrap_lines (list_ascii_of_string text) width) as [|line more] eqn:E.
  - reflexivity.
  - by rewrite CellFacts.split_lines_join.
Qed.

(** X20: a text made only of whitespace (spaces, tabs, line breaks)
    wraps to no line at all, at any width, so its cell is the empty
    string: a record whose name is blank still gets a row, with an
    empty Title. *)
Theorem blank_text_gives_empty_cell text width :
  forallb Textwrap.is_whitespace (list_ascii_of_string text) = true ->
  Textwrap.lines text width = [] /\ cell text width = EmptyString.
Proof.
  intros H. unfold cell, Textwrap.lines.
  by rewrite (CellFacts.wrap_lines_blank _ _ H).
Qed.

(** * Examples *)

Example string_of_Z_examples :
  string_of_Z 404 = "404"%string /\ string_of_Z 0 = "0"%string /\ string_of_Z (-5) = "-5"%string.
Proof. repeat split; reflexivity. Qed.

(** The sample response renders as a table of two rows, after one call
    to the shortener per row, followed by the line of the total. *)
Example sample_render :
  trace (snd (print_bing_results sample_short sample_str_compound (VDict 0) sample_state)) =
  [EvShort (VStr "https://news.example/budget");
   EvShort (VStr "https://bing.example/storm");
   EvTable [Row "Budget vote delayed"
              ("Parliament postpones the vote on the budget until the end of"
               +:+ newline +:+ "the month")
              "https://qps.ru/x";
            Row "Storm warning" "Provided by Reuters, an Organization." "https://qps.ru/x"];
   EvSecho "2 estimated matches." None].
Proof. vm_compute. reflexivity. Qed.

(** With the shortener out of service the first row already fails and
    nothing is printed. *)
Example sample_render_without_shortener :
  fst (print_bing_results failing_short sample_str_compound (VDict 0) sample_state) =
    Raise (ExternalError "ShorteningErrorException") /\
  printed (trace (snd (print_bing_results failing_short sample_str_compound (VDict 0)
                         sample_state))) = [].
Proof. split; vm_compute; reflexivity. Qed.

(** A description of 61 characters that ends in two spaces is wrapped
    onto a single line. *)
Example trailing_spaces_single_line :
  let description :=
    "aaaaaaaaaaaaaaaaaaaaaaaaaaaaaaaaaaaaaaaaaaaaaaaaaaaaaaaaaaa  "%string in
  String.length description = 61%nat /\
  Textwrap.lines description 60 =
    ["aaaaaaaaaaaaaaaaaaaaaaaaaaaaaaaaaaaaaaaaaaaaaaaaaaaaaaaaaaa"%string].
Proof. split; vm_compute; reflexivity. Qed.

(** A description of 61 characters that begins with a space is wrapped
    onto a single line as well. *)
Example leading_space_single_line :
  let description :=
    " aaaaaaaaaaaaaaaaaaaaaaaaaaaaaaaaaaaaaaaaaaaaaaaaaaaaaaaaaaaa"%string in
  String.length description = 61%nat /\
  Textwrap.lines description 60 =
    ["aaaaaaaaaaaaaaaaaaaaaaaaaaaaaaaaaaaaaaaaaaaaaaaaaaaaaaaaaaaa"%string].
Proof. split; vm_compute; reflexivity. Qed.

(** A hyphenated word may be broken after its hyphen: [wordsep_re]
    cuts it there, and the pieces are whole on the lines.  The sample
    headline is broken in this way at width 40. *)
Example hyphenated_word_is_broken :
  Textwrap.lines "aaaa well-known" 10 = ["aaaa well-"; "known"]%string /\
  string_of_list_ascii <$> Textwrap.pieces "aaaa well-known" =
    ["aaaa"; "well-"; "known"]%string /\
  ~ Textwrap.whole_words "aaaa well-known" /\
  Textwrap.lines hyphenated_name 40 =
    ["Ministers reopen the stalled and long-"; "running budget talks"]%string.
Proof.
  split; [vm_compute; reflexivity|]. split; [vm_compute; reflexivity|].
  split; [|vm_compute; reflexivity].
  vm_compute. intros (_ & _ & H & _). discriminate (H eq_refl).
Qed.

(** A hyphen does not make a word breakable by itself: a dash between
    two words and the word [a-b] are not cut, and a description with
    both keeps its words on its two lines. *)
Example dash_and_short_hyphen_are_kept :
  let description :=
    "Talks resume - a-b ministers meet on Monday to discuss the budget and trade"%string in
  Textwrap.no_hyphen_before_word_char description = false /\
  Textwrap.whole_words description /\
  Textwrap.lines description 60 =
    ["Talks resume - a-b ministers meet on Monday to discuss the";
     "budget and trade"]%string /\
  flat_map Textwrap.words_of (Textwrap.lines description 60) = Textwrap.words_of description.
Proof.
  split; [vm_compute; reflexivity|].
  split; [vm_compute; repeat (split; [intros H; first [reflexivity | discriminate H]|]);
          exact I|].
  split; vm_compute; reflexivity.
Qed.

(** A word made of a space character that is none of the six of
    [textwrap] is dropped at the end of a line. *)
Example blank_word_is_dropped :
  let text := ("aaaa " +:+ String (ascii_of_nat 28) " bbbb")%string in
  Textwrap.words_of text =
    [list_ascii_of_string "aaaa"; [ascii_of_nat 28]; list_ascii_of_string "bbbb"] /\
  Textwrap.lines text 6 = ["aaaa "; "bbbb"]%string /\
  flat_map Textwrap.words_of (Textwrap.lines text 6) <> Textwrap.words_of text.
Proof.
  split; [vm_compute; reflexivity|]. split; [vm_compute; reflexivity|].
  vm_compute. discriminate.
Qed.

(** The chunks of the example in the documentation of [TextWrapper]. *)
Example split_documented :
  string_of_list_ascii <$>
    Textwrap.split (list_ascii_of_string "Look, goof-ball -- use the -b option!") =
  ["Look,"; " "; "goof-"; "ball"; " "; "--"; " "; "use"; " "; "the"; " "; "-b"; " ";
   "option!"]%string.
Proof. vm_compute. reflexivity. Qed.

(** * Counterexamples *)


(** C9 as stated fails for a status that is neither 2xx nor an error
    status: [raise_for_status] lets 304 and 300 pass.  With a 304 answer
    that carries no JSON the decoding exception escapes the command, the
    exit status is 1 and no error message is printed; with a 300 answer
    that carries a JSON body the table is printed. *)
Lemma redirect_status_is_not_caught :
  main sample_environ (answering 304 "Not Modified" no_json) sample_short sample_str_compound
    (Cat "Sports" "en-US") =
  (Raise (ExternalError "JSONDecodeError"),
   State ∅ [EvSecho "Searching for Sports in en-US..." None;
            EvGet "https://api.example/v7.0/news?mkt=en-US&category=Sports"
              [("Ocp-Apim-Subscription-Key"%string, "0123abcd"%string)] []]) /\
  exit_status
    (fst (main sample_environ (answering 304 "Not Modified" no_json) sample_short
            sample_str_compound (Cat "Sports" "en-US"))) = 1 /\
  trace (snd (main sample_environ (answering 300 "Multiple Choices" empty_result) sample_short
                sample_str_compound (Cat "Sports" "en-US"))) =
  [EvSecho "Searching for Sports in en-US..." None;
   EvGet "https://api.example/v7.0/news?mkt=en-US&category=Sports"
     [("Ocp-Apim-Subscription-Key"%string, "0123abcd"%string)] [];
   EvTable []].
Proof. split; [|split]; vm_compute; reflexivity. Qed.

(** * The theorems at the sample data *)

Lemma one_row_per_article_witness :
  deref (store sample_state) 0 !! "value" = Some (VList [VDict 1; VDict 2]) /\
  (forall tr url, exists a, sample_short tr url = Ok a) /\
  exists rows shorts tail s',
    print_bing_results sample_short sample_str_compound (VDict 0) sample_state = (Ok tt, s') /\
    trace s' = trace sample_state ++ shorts ++ EvTable rows :: tail /\
    Forall (fun e => is_short e = true) shorts /\
    Forall (fun e => is_table e = false) tail /\
    Forall2 (row_of sample_short (store sample_state)) [VDict 1; VDict 2] rows.
Proof.
  split; [reflexivity|]. split; [intros; eexists; reflexivity|].
  apply (one_row_per_article sample_short sample_str_compound sample_state 0%nat
           [VDict 1; VDict 2]).
  - reflexivity.
  - constructor; [|constructor; [|constructor]].
    + eexists _, _, _. apply standard_article; reflexivity.
    + eexists _, _, _. eapply trending_article; reflexivity.
  - intros; eexists; reflexivity.
Defined.

Lemma missing_value_fails_fast_witness :
  deref (store sample_state) 7 !! "value" = None /\
  print_bing_results sample_short sample_str_compound (VDict 7) sample_state =
  (Raise AssertionError, sample_state).
Proof.
  split; [reflexivity|].
  apply (missing_value_fails_fast sample_short sample_str_compound sample_state 7%nat).
  reflexivity.
Defined.

Lemma classification_by_two_keys_witness :
  trending_shape (deref (store sample_state) 2) /\
  clean_item sample_short sample_str_compound (VDict 2) sample_state =
  (let* item := clean_trending_article_dictionary sample_str_compound (VDict 2) in
   new_dictionary sample_short item) sample_state.
Proof.
  assert (trending_shape (deref (store sample_state) 2)) as H
    by (split; eexists; reflexivity).
  split; [exact H|].
  apply (classification_by_two_keys sample_short sample_str_compound sample_state 2%nat).
  exact H.
Defined.

Lemma trending_url_and_description_witness :
  deref (store sample_state) 3 !! "provider" = Some (VList [VDict 4]) /\
  exists s',
    clean_trending_article_dictionary sample_str_compound (VDict 2) sample_state =
      (Ok (VDict 2), s') /\
    deref (store s') 2 !! "url" = Some (VStr "https://bing.example/storm") /\
    deref (store s') 2 !! "description" =
      Some (VStr "Provided by Reuters, an Organization.").
Proof.
  split; [reflexivity|].
  apply (trending_url_and_description sample_str_compound sample_state 2%nat 3%nat 4%nat []
           (VStr "Storm warning") (VStr "https://bing.example/storm")
           "Reuters" "Organization"); reflexivity.
Defined.

Lemma empty_provider_aborts_render_witness :
  deref (store sample_state) 6 !! "provider" = Some (VList []) /\
  clean_trending_article_dictionary sample_str_compound (VDict 5) sample_state =
    (Raise IndexError, sample_state) /\
  (exists e s',
      print_bing_results sample_short sample_str_compound (VDict 8) sample_state =
        (Raise e, s') /\
      printed (trace s') = printed (trace sample_state)) /\
  (forall rows s1,
      for_each sample_short sample_str_compound [VDict 1] [] sample_state = (Ok rows, s1) ->
      print_bing_results sample_short sample_str_compound (VDict 8) sample_state =
        (Raise IndexError, s1)).
Proof.
  split; [reflexivity|].
  apply (empty_provider_aborts_render sample_short sample_str_compound sample_state 8%nat
           [VDict 1] 5%nat 6%nat [VDict 2]).
  - reflexivity.
  - split; eexists; reflexivity.
  - reflexivity.
  - reflexivity.
Defined.


Lemma category_query_path_witness :
  sample_environ !! "BING_SEARCH_ENDPOINT" = Some "https://api.example/"%string /\
  exists r s' rest,
    search_bing_by_category sample_environ (answering 404 "Not Found" no_json) sample_short
      sample_str_compound "Sports" "en-US" sample_state = (r, s') /\
    trace s' =
      trace sample_state ++
      EvSecho "Searching for Sports in en-US..." None
      :: EvGet "https://api.example/v7.0/news?mkt=en-US&category=Sports"
           [("Ocp-Apim-Subscription-Key"%string, "0123abcd"%string)] []
      :: rest /\
    Forall (fun e => is_request e = false) rest.
Proof.
  split; [reflexivity|].
  apply (category_query_path sample_environ (answering 404 "Not Found" no_json) sample_short
           sample_str_compound "Sports" "en-US" "0123abcd" "https://api.example/"
           sample_state); reflexivity.
Defined.

Lemma missing_configuration_stops_before_request_witness :
  (∅ : gmap string string) !! "BING_SEARCH_KEY" = None /\
  exists message,
    cli ∅ (answering 200 "OK" empty_result) sample_short sample_str_compound
      (Trend "en-GB") sample_state =
    (Raise AssertionError,
     State (store sample_state) (trace sample_state ++ [EvSecho message None])).
Proof.
  split; [reflexivity|].
  assert ((∅ : gmap string string) !! "BING_SEARCH_KEY" = None \/
          (∅ : gmap string string) !! "BING_SEARCH_ENDPOINT" = None) as H0
    by (left; reflexivity).
  destruct (missing_configuration_stops_before_request ∅ (answering 200 "OK" empty_result)
              sample_short sample_str_compound (Trend "en-GB") H0) as [_ H].
  destruct (H sample_state) as (message & E & _).
  exists message. exact E.
Defined.

Lemma http_error_is_reported_witness :
  400 <= 404 < 600 /\
  exists searching request message,
    cli sample_environ (answering 404 "Not Found" no_json) sample_short sample_str_compound
      (Phrase "election") sample_state =
    (Ok tt, State (store sample_state)
              (trace sample_state ++ [EvSecho searching None; request;
                                      EvSecho ("Error: " +:+ message) (Some "red"%string)])) /\
    is_request request = true /\
    exit_status
      (fst (cli sample_environ (answering 404 "Not Found" no_json) sample_short
              sample_str_compound (Phrase "election") sample_state)) = 0.
Proof.
  split; [lia|].
  apply (http_error_is_reported sample_environ (answering 404 "Not Found" no_json)
           sample_short sample_str_compound (Phrase "election") "0123abcd"
           "https://api.example/" sample_state).
  - reflexivity.
  - reflexivity.
  - intros. eexists. split; [reflexivity | simpl; lia].
Defined.

Lemma normalization_mutates_in_place_witness :
  deref (store sample_state) 2 !! "title" = None /\
  exists s',
    clean_trending_article_dictionary sample_str_compound (VDict 2) sample_state =
      (Ok (VDict 2), s') /\
    deref (store s') 2 !! "title" = Some (VStr "Storm warning") /\
    deref (store s') 2 <> deref (store sample_state) 2.
Proof.
  split; [reflexivity|].
  destruct (normalization_mutates_in_place sample_short sample_str_compound sample_state
              2%nat 3%nat 4%nat [] (VStr "Storm warning") (VStr "https://bing.example/storm")
              (VStr "Reuters") (VStr "Organization")
              eq_refl eq_refl eq_refl eq_refl eq_refl eq_refl)
    as (s' & text & E & _ & _ & Ht & _ & _ & _ & _ & Hne & _).
  exists s'. split; [exact E|]. split; [exact Ht|]. apply Hne. reflexivity.
Defined.

(** * The further properties at the sample data *)

Lemma phrase_query_parameters_witness :
  sample_environ !! "BING_SEARCH_KEY" = Some "0123abcd"%string /\
  sample_environ !! "BING_SEARCH_ENDPOINT" = Some "https://api.example/"%string /\
  exists r s' rest,
    search_bing_by_phrase sample_environ (answering 200 "OK" sample_body) sample_short
      sample_str_compound "budget vote" (State ∅ []) = (r, s') /\
    trace s' =
      [] ++
      EvSecho "Searching for budget vote..." None
      :: EvGet "https://api.example/v7.0/news/search"
           [("Ocp-Apim-Subscription-Key"%string, "0123abcd"%string)]
           [("q"%string, VStr "budget vote"); ("textDecorations"%string, VBool false)]
      :: rest /\
    Forall (fun e => is_request e = false) rest.
Proof.
  split; [reflexivity|]. split; [reflexivity|].
  apply (phrase_query_parameters sample_environ (answering 200 "OK" sample_body) sample_short
           sample_str_compound "budget vote" "0123abcd" "https://api.example/"
           (State ∅ [])); reflexivity.
Defined.

Lemma trending_query_path_witness :
  sample_environ !! "BING_SEARCH_KEY" = Some "0123abcd"%string /\
  sample_environ !! "BING_SEARCH_ENDPOINT" = Some "https://api.example/"%string /\
  exists r s' rest,
    search_bing_by_trending sample_environ (answering 200 "OK" sample_body) sample_short
      sample_str_compound "en-GB" (State ∅ []) = (r, s') /\
    trace s' =
      [] ++
      EvSecho "Searching for trending topics in en-GB..." None
      :: EvGet "https://api.example/v7.0/news/trendingtopics?mkt=en-GB"
           [("Ocp-Apim-Subscription-Key"%string, "0123abcd"%string)] []
      :: rest /\
    Forall (fun e => is_request e = false) rest.
Proof.
  split; [reflexivity|]. split; [reflexivity|].
  apply (trending_query_path sample_environ (answering 200 "OK" sample_body) sample_short
           sample_str_compound "en-GB" "0123abcd" "https://api.example/"
           (State ∅ [])); reflexivity.
Defined.

Lemma request_failure_escapes_witness :
  (forall tr url headers params,
      unreachable tr url headers params = Raise (ExternalError "ConnectionError")) /\
  exists searching request,
    cli sample_environ unreachable sample_short sample_str_compound (Trend "en-GB")
      (State ∅ []) =
    (Raise (ExternalError "ConnectionError"),
     State ∅ ([] ++ [EvSecho searching None; request])) /\
    is_request request = true /\
    exit_status (fst (cli sample_environ unreachable sample_short sample_str_compound
                        (Trend "en-GB") (State ∅ []))) = 1.
Proof.
  split; [reflexivity|].
  apply (request_failure_escapes sample_environ unreachable sample_short sample_str_compound
           (Trend "en-GB") "0123abcd" "https://api.example/"
           (ExternalError "ConnectionError") (State ∅ [])); reflexivity.
Defined.

Lemma total_line_follows_table_witness :
  deref edge_store 0 !! "totalEstimatedMatches" = Some (VInt 1200) /\
  print_bing_results sample_short sample_str_compound (VDict 0) edge_state =
  (Ok tt,
   State edge_store
     [EvShort (VStr "https://news.example/budget");
      EvTable [Row (cell "Budget vote delayed" 40) (cell sample_description 60)
                 "https://qps.ru/x"];
      EvSecho "1200 estimated matches." None]).
Proof.
  split; [reflexivity|].
  apply (total_line_follows_table sample_short sample_str_compound edge_state 0%nat
           (VList [VDict 1])
           [Row (cell "Budget vote delayed" 40) (cell sample_description 60)
              "https://qps.ru/x"]
           (State edge_store [EvShort (VStr "https://news.example/budget")]));
    vm_compute; reflexivity.
Defined.

Lemma incomplete_record_raises_witness :
  ~ trending_shape (deref (store edge_state) 2) /\
  deref (store edge_state) 2 !! "name" = Some (VStr "Untitled") /\
  deref (store edge_state) 2 !! "description" = None /\
  clean_item sample_short sample_str_compound (VDict 2) edge_state =
  (Raise (KeyError (VStr "description")), edge_state).
Proof.
  assert (~ trending_shape (deref (store edge_state) 2)) as H
    by (intros [_ [x Hx]]; discriminate Hx).
  split; [exact H|]. split; [reflexivity|]. split; [reflexivity|].
  destruct (incomplete_record_raises sample_short sample_str_compound edge_state 2%nat H)
    as (_ & Hd & _).
  apply (Hd "Untitled"%string); reflexivity.
Defined.

Lemma failed_normalization_leaves_writes_witness :
  deref (store edge_state) 5 !! "name" = None /\
  deref (store edge_state) 3 !! "title" = None /\
  exists s',
    clean_trending_article_dictionary sample_str_compound (VDict 3) edge_state =
      (Raise (KeyError (VStr "name")), s') /\
    deref (store s') 3 !! "title" = Some (VStr "Heat wave") /\
    deref (store s') 3 !! "url" = Some (VStr "https://bing.example/heat").
Proof.
  split; [reflexivity|]. split; [reflexivity|].
  destruct (failed_normalization_leaves_writes sample_str_compound edge_state 3%nat 4%nat
              5%nat [] (VStr "Heat wave") (VStr "https://bing.example/heat")) as [_ H].
  destruct (H eq_refl eq_refl eq_refl eq_refl) as (Hn & _ & Ht & Hu).
  eexists. split; [apply Hn; reflexivity|]. split; [exact Ht | exact Hu].
Defined.

Lemma non_dictionary_item_raises_witness :
  (forall l : loc, VStr "stray" <> VDict l) /\
  clean_item sample_short sample_str_compound (VStr "stray") edge_state =
    (Raise TypeError, edge_state) /\
  print_bing_results sample_short sample_str_compound (VDict 7) edge_state =
    (Raise TypeError, State edge_store [EvShort (VStr "https://news.example/budget")]).
Proof.
  assert (forall l : loc, VStr "stray" <> VDict l) as H by (intros l; discriminate).
  split; [exact H|].
  destruct (non_dictionary_item_raises sample_short sample_str_compound (VStr "stray")
              edge_state H) as [E R].
  split; [exact E|].
  apply (R 7%nat [VDict 1] []
           [Row (cell "Budget vote delayed" 40) (cell sample_description 60)
              "https://qps.ru/x"]
           (State edge_store [EvShort (VStr "https://news.example/budget")]));
    vm_compute; reflexivity.
Defined.

Lemma value_not_a_list_raises_witness :
  deref (store edge_state) 6 !! "value" = Some VNone /\
  print_bing_results sample_short sample_str_compound (VDict 6) edge_state =
    (Raise TypeError, edge_state).
Proof.
  split; [reflexivity|].
  apply (value_not_a_list_raises sample_short sample_str_compound edge_state 6%nat VNone).
  - reflexivity.
  - intros items; discriminate.
  - discriminate.
  - intros l; discriminate.
Defined.

Lemma non_dictionary_response_raises_witness :
  (forall l : loc, VList [VStr "error"] <> VDict l) /\
  print_bing_results sample_short sample_str_compound (VList [VStr "error"]) edge_state =
    (Raise AssertionError, edge_state).
Proof.
  split; [intros l; discriminate|].
  apply (non_dictionary_response_raises sample_short sample_str_compound
           (VList [VStr "error"]) edge_state).
  intros l; discriminate.
Defined.

Lemma shortener_failure_aborts_render_witness :
  failing_short [] (VStr "https://news.example/budget") =
    Raise (ExternalError "ShorteningErrorException") /\
  exists h',
    print_bing_results failing_short sample_str_compound (VDict 0) sample_state =
      (Raise (ExternalError "ShorteningErrorException"),
       State h' ([] ++ [EvShort (VStr "https://news.example/budget")])) /\
    printed ([] ++ [EvShort (VStr "https://news.example/budget")]) = printed [].
Proof.
  split; [reflexivity|].
  apply (shortener_failure_aborts_render failing_short sample_str_compound sample_state 0%nat
           [] (VDict 1) [VDict 2] "Budget vote delayed" sample_description
           (VStr "https://news.example/budget") [] sample_state
           (ExternalError "ShorteningErrorException")).
  - reflexivity.
  - reflexivity.
  - apply standard_article; reflexivity.
  - reflexivity.
Defined.

Lemma shortener_error_inside_try_witness :
  200 < 400 /\
  deref (sample_store ∪ ∅) 0 !! "value" = Some (VList [VDict 1; VDict 2]) /\
  exists h',
    search_and_output_bing sample_environ (answering 200 "OK" sample_body) refusing_short
      sample_str_compound "/search" [("q"%string, VStr "budget")] (State ∅ []) =
    (Ok tt,
     State h'
       ([] ++
        [EvGet "https://api.example/v7.0/news/search"
           [("Ocp-Apim-Subscription-Key"%string, "0123abcd"%string)]
           [("q"%string, VStr "budget")];
         EvShort (VStr "https://news.example/budget");
         EvSecho
           "Error: 429 Client Error: Too Many Requests for url: https://qps.ru/api"
           (Some "red"%string)])).
Proof.
  split; [lia|]. split; [reflexivity|].
  apply (shortener_error_inside_try sample_environ (answering 200 "OK" sample_body)
           refusing_short sample_str_compound "/search" [("q"%string, VStr "budget")]
           "0123abcd" "https://api.example/"
           (EvGet "https://api.example/v7.0/news/search"
              [("Ocp-Apim-Subscription-Key"%string, "0123abcd"%string)]
              [("q"%string, VStr "budget")])
           (Response 200 "OK" "https://api.example/v7.0/news/search" sample_body)
           0%nat sample_store (VDict 1) [VDict 2] "Budget vote delayed" sample_description
           (VStr "https://news.example/budget")
           (HTTPError "429 Client Error: Too Many Requests for url: https://qps.ru/api")
           (State ∅ [])).
  - reflexivity.
  - reflexivity.
  - reflexivity.
  - reflexivity.
  - left. simpl. lia.
  - reflexivity.
  - reflexivity.
  - apply standard_article; reflexivity.
  - reflexivity.
Defined.

Lemma undecodable_body_escapes_witness :
  200 < 400 /\
  no_json = Raise (ExternalError "JSONDecodeError") /\
  search_and_output_bing sample_environ (answering 200 "OK" no_json) sample_short
    sample_str_compound "/search" [("q"%string, VStr "budget")] (State ∅ []) =
    (Raise (ExternalError "JSONDecodeError"),
     State ∅ ([] ++ [EvGet "https://api.example/v7.0/news/search"
                       [("Ocp-Apim-Subscription-Key"%string, "0123abcd"%string)]
                       [("q"%string, VStr "budget")]])) /\
  exit_status
    (fst (search_and_output_bing sample_environ (answering 200 "OK" no_json) sample_short
            sample_str_compound "/search" [("q"%string, VStr "budget")] (State ∅ []))) = 1.
Proof.
  split; [lia|]. split; [reflexivity|].
  apply (undecodable_body_escapes sample_environ (answering 200 "OK" no_json) sample_short
           sample_str_compound "/search" [("q"%string, VStr "budget")]
           "0123abcd" "https://api.example/"
           (Response 200 "OK" "https://api.example/v7.0/news/search" no_json)
           (ExternalError "JSONDecodeError") (State ∅ [])).
  - reflexivity.
  - reflexivity.
  - reflexivity.
  - left. simpl. lia.
  - reflexivity.
  - intros message; discriminate.
Defined.

Lemma successful_search_prints_table_witness :
  (forall tr url, exists a, sample_short tr url = Ok a) /\
  exists searching request rows urls tail h',
    cli sample_environ
      (fun _ _ _ _ => Ok (Response 200 "OK" "https://api.example/" sample_body))
      sample_short sample_str_compound (Cat "Sports" "en-US") (State ∅ []) =
    (Ok tt, State h' ([] ++ EvSecho searching None :: request
                        :: (EvShort <$> urls) ++ EvTable rows :: tail)) /\
    is_request request = true /\
    Forall2 (fun item url => exists n d, article (sample_store ∪ ∅) item n d url)
      [VDict 1; VDict 2] urls /\
    Forall (fun e => is_table e = false /\ is_request e = false) tail /\
    Forall2 (row_of sample_short (sample_store ∪ ∅)) [VDict 1; VDict 2] rows /\
    exit_status
      (fst (cli sample_environ
              (fun _ _ _ _ => Ok (Response 200 "OK" "https://api.example/" sample_body))
              sample_short sample_str_compound (Cat "Sports" "en-US") (State ∅ []))) = 0.
Proof.
  split; [intros; eexists; reflexivity|].
  apply (successful_search_prints_table sample_environ
           (fun _ _ _ _ => Ok (Response 200 "OK" "https://api.example/" sample_body))
           sample_short sample_str_compound (Cat "Sports" "en-US") "0123abcd"
           "https://api.example/"
           (Response 200 "OK" "https://api.example/" sample_body)
           0%nat sample_store [VDict 1; VDict 2] (State ∅ [])).
  - reflexivity.
  - reflexivity.
  - reflexivity.
  - left. simpl. lia.
  - reflexivity.
  - reflexivity.
  - constructor; [|constructor; [|constructor]].
    + eexists _, _, _. apply standard_article; reflexivity.
    + eexists _, _, _. eapply trending_article; reflexivity.
  - intros; eexists; reflexivity.
Defined.

Lemma render_writes_only_normalized_keys_witness :
  deref (store (snd (print_bing_results sample_short sample_str_compound (VDict 0)
                       sample_state))) 2 !! "name" = Some (VStr "Storm warning") /\
  deref (store (snd (print_bing_results sample_short sample_str_compound (VDict 0)
                       sample_state))) 1 = deref (store sample_state) 1.
Proof.
  pose proof (render_writes_only_normalized_keys sample_short sample_str_compound (VDict 0)
                sample_state
                (fst (print_bing_results sample_short sample_str_compound (VDict 0)
                        sample_state))
                (snd (print_bing_results sample_short sample_str_compound (VDict 0)
                        sample_state))
                (surjective_pairing _)) as H.
  split.
  - destruct (H 2%nat) as [H2 _]. rewrite H2 by discriminate. reflexivity.
  - destruct (H 1%nat) as [_ H1]. apply H1. right. reflexivity.
Defined.

Lemma normalization_is_idempotent_witness :
  deref (store sample_state) 4 !! "name" = Some (VStr "Reuters") /\
  exists s1,
    clean_trending_article_dictionary sample_str_compound (VDict 2) sample_state =
      (Ok (VDict 2), s1) /\
    clean_trending_article_dictionary sample_str_compound (VDict 2) s1 = (Ok (VDict 2), s1).
Proof.
  split; [reflexivity|].
  apply (normalization_is_idempotent sample_str_compound sample_state 2%nat 3%nat 4%nat []
           (VStr "Storm warning") (VStr "https://bing.example/storm")
           "Reuters" "Organization"); reflexivity.
Defined.

Lemma one_shortener_call_per_row_witness :
  clean_bing_article_list numbering_short sample_str_compound (VList [VDict 1; VDict 1])
    edge_state =
    (Ok [Row (cell "Budget vote delayed" 40) (cell sample_description 60) "https://qps.ru/0";
         Row (cell "Budget vote delayed" 40) (cell sample_description 60) "https://qps.ru/1"],
     State edge_store [EvShort (VStr "https://news.example/budget");
                       EvShort (VStr "https://news.example/budget")]) /\
  exists urls,
    [EvShort (VStr "https://news.example/budget");
     EvShort (VStr "https://news.example/budget")] = [] ++ (EvShort <$> urls) /\
    length urls = 2%nat /\
    answered numbering_short [] urls
      [Row (cell "Budget vote delayed" 40) (cell sample_description 60) "https://qps.ru/0";
       Row (cell "Budget vote delayed" 40) (cell sample_description 60) "https://qps.ru/1"].
Proof.
  assert (clean_bing_article_list numbering_short sample_str_compound
            (VList [VDict 1; VDict 1]) edge_state =
          (Ok [Row (cell "Budget vote delayed" 40) (cell sample_description 60)
                 "https://qps.ru/0";
               Row (cell "Budget vote delayed" 40) (cell sample_description 60)
                 "https://qps.ru/1"],
           State edge_store [EvShort (VStr "https://news.example/budget");
                             EvShort (VStr "https://news.example/budget")])) as E
    by (vm_compute; reflexivity).
  split; [exact E|].
  exact (one_shortener_call_per_row numbering_short sample_str_compound
           (VList [VDict 1; VDict 1]) edge_state _ _ E).
Defined.

Lemma built_cells_fit_witness :
  clean_item sample_short sample_str_compound (VDict 0) (State long_word_store []) =
    (Ok (Row "Headline" (cell long_word 60) "https://qps.ru/x"),
     State long_word_store [EvShort (VStr "https://news.example/a")]) /\
  Forall (fun line => (String.length line <= 40)%nat) (split_lines "Headline") /\
  Forall (fun line => (String.length line <= 60)%nat) (split_lines (cell long_word 60)).
Proof.
  assert (clean_item sample_short sample_str_compound (VDict 0) (State long_word_store []) =
          (Ok (Row "Headline" (cell long_word 60) "https://qps.ru/x"),
           State long_word_store [EvShort (VStr "https://news.example/a")])) as E
    by (vm_compute; reflexivity).
  split; [exact E|].
  exact (built_cells_fit sample_short sample_str_compound (VDict 0)
           (State long_word_store []) _ _ E).
Defined.

Lemma blank_text_gives_empty_cell_witness :
  forallb Textwrap.is_whitespace (list_ascii_of_string "   ") = true /\
  Textwrap.lines "   " 40 = [] /\ cell "   " 40 = EmptyString.
Proof.
  split; [reflexivity|].
  apply (blank_text_gives_empty_cell "   " 40). reflexivity.
Defined.
